(** * GitHubRepositoryTool: the Solidity-file fetcher of the audit crew

    A shallow embedding of [GitHubRepositoryTool._run] and
    [GitHubRepositoryTool._find_solidity_files]
    (src/smart_contract_audit_agent/tools/audit_tools.py), and the
    properties of the fetcher that the specification states.

    - Python [str] is [string], one [ascii] for each character; [len] is
      [Z]-valued, as Python integers are unbounded.
    - A [dict] with string keys is an association list in insertion order.
    - [requests.get] and [os.getenv] are the two windows on the outside
      world: they are the variables [net] and [getenv] of the sections
      below.  Every request made is recorded, in order, in a log.
    - [print] only writes a debugging line and is left out. *)

From Stdlib Require Import List Bool Arith ZArith Lia.
From Stdlib Require Import Ascii String DecimalString.
Import ListNotations.

Open Scope string_scope.
Open Scope Z_scope.

(** ** Python string operations *)

Module Py.

(** [len(s)] *)
Definition len (s : string) : Z := Z.of_nat (String.length s).

(** [len(l)] on a list *)
Definition llen {A : Type} (l : list A) : Z := Z.of_nat (List.length l).

(** [str(n)] for an integer *)
Definition str (n : Z) : string := NilZero.string_of_int (Z.to_int n).

(** [s.startswith(p)] *)
Fixpoint startswith (s p : string) {struct p} : bool :=
  match p with
  | EmptyString => true
  | String b p' =>
      match s with
      | EmptyString => false
      | String a s' => Ascii.eqb a b && startswith s' p'
      end
  end.

(** [s.endswith(p)]: some suffix of [s] is [p]. *)
Fixpoint endswith (s p : string) : bool :=
  String.eqb s p ||
  match s with
  | EmptyString => false
  | String _ s' => endswith s' p
  end.

(** [p in s]: [p] starts at some position of [s]. *)
Fixpoint contains (s p : string) : bool :=
  startswith s p ||
  match s with
  | EmptyString => false
  | String _ s' => contains s' p
  end.

(** [s[:n]] *)
Fixpoint take (n : nat) (s : string) : string :=
  match n, s with
  | S k, String a s' => String a (take k s')
  | _, _ => EmptyString
  end.

(** [s.rstrip(c)] for a one-character set *)
Fixpoint rstrip (s : string) (c : ascii) : string :=
  match s with
  | EmptyString => EmptyString
  | String a s' =>
      match rstrip s' c with
      | EmptyString => if Ascii.eqb a c then EmptyString else String a EmptyString
      | r => String a r
      end
  end.

(** [s.replace(old, new)].  Occurrences are found from the left and do not
    overlap; [skip] counts the characters of a matched occurrence that are
    still to be passed over.  With an empty [old], Python puts [new] before
    every character and at the end. *)
Fixpoint replace_from (old new : string) (skip : nat) (s : string) : string :=
  match s with
  | EmptyString => EmptyString
  | String a s' =>
      match skip with
      | S k => replace_from old new k s'
      | O =>
          if startswith s old
          then new ++ replace_from old new (Nat.pred (String.length old)) s'
          else String a (replace_from old new O s')
      end
  end.

Fixpoint intersperse (new s : string) : string :=
  match s with
  | EmptyString => new
  | String a s' => new ++ String a (intersperse new s')
  end.

Definition replace (s old new : string) : string :=
  match old with
  | EmptyString => intersperse new s
  | _ => replace_from old new O s
  end.

(** ["".join(l)] *)
Fixpoint join (l : list string) : string :=
  match l with
  | [] => EmptyString
  | x :: l' => x ++ join l'
  end.

(** [c * n] for a character *)
Fixpoint repeat_char (c : ascii) (n : nat) : string :=
  match n with
  | O => EmptyString
  | S k => String c (repeat_char c k)
  end.

End Py.

(** ** Dictionaries, requests and responses *)

(** A [dict] with string keys and string values, in insertion order. *)
Definition dict := list (string * string).

Fixpoint dict_lookup (d : dict) (k : string) : option string :=
  match d with
  | [] => None
  | (k', v) :: d' => if String.eqb k' k then Some v else dict_lookup d' k
  end.

(** [d.get(k, default)] *)
Definition dict_get (d : dict) (k default : string) : string :=
  match dict_lookup d k with
  | Some v => v
  | None => default
  end.

(** [d[k] = v] *)
Fixpoint dict_set (d : dict) (k v : string) : dict :=
  match d with
  | [] => [(k, v)]
  | (k', v') :: d' =>
      if String.eqb k' k then (k', v) :: d' else (k', v') :: dict_set d' k v
  end.

(** One call of [requests.get(url, headers=headers)]. *)
Record request := mkRequest { req_url : string; req_headers : dict }.

(** An entry of a contents listing is a JSON object; the fetcher reads its
    keys [type], [name], [path] and [download_url]. *)
Definition item := dict.

(** What the fetcher reads of a [requests.Response]: [status_code], [text]
    and [json()], which is [None] when the body does not decode to a list of
    objects (the call or the iteration then raises). *)
Record response := mkResponse {
  status_code : Z;
  text : string;
  json : option (list item)
}.

(** [requests.get] returns a response or raises (a transport error). *)
Inductive outcome :=
| Returns (r : response)
| Raises (msg : string).

(** A discovered file: [(item['path'], item['download_url'])]. *)
Definition file := (string * string)%type.

(** ** Computations: a request log and Python exceptions *)

Inductive result (A : Type) :=
| Ok (a : A)
| Exc (msg : string).
Arguments Ok {A} a.
Arguments Exc {A} msg.

Definition M (A : Type) := list request -> result A * list request.

Definition ret {A} (a : A) : M A := fun log => (Ok a, log).

Definition raise {A} (msg : string) : M A := fun log => (Exc msg, log).

Definition bind {A B} (m : M A) (k : A -> M B) : M B :=
  fun log =>
    match m log with
    | (Ok a, log') => k a log'
    | (Exc e, log') => (Exc e, log')
    end.

Notation "x <- m ;; k" := (bind m (fun x => k))
  (at level 61, m at next level, right associativity).

(** [d[k]], which raises [KeyError] on a missing key. *)
Definition getitem (d : dict) (k : string) : M string :=
  match dict_lookup d k with
  | Some v => ret v
  | None => raise ("'" ++ k ++ "'")
  end.

(** ** URL validation

    [re.match(r'https://github\.com/([^/]+)/([^/]+)', s)] anchors at the
    start of [s] only.  [[^/]+] is greedy and the character after it must be
    a slash (or the end of the pattern), so each group is the longest run of
    characters other than a slash, and must not be empty. *)

Fixpoint strip_prefix (p s : string) {struct p} : option string :=
  match p with
  | EmptyString => Some s
  | String b p' =>
      match s with
      | EmptyString => None
      | String a s' => if Ascii.eqb a b then strip_prefix p' s' else None
      end
  end.

Fixpoint span_not_slash (s : string) : string * string :=
  match s with
  | EmptyString => (EmptyString, EmptyString)
  | String a s' =>
      if Ascii.eqb a "/" then (EmptyString, s)
      else let (run, rest) := span_not_slash s' in (String a run, rest)
  end.

Definition match_github_url (s : string) : option (string * string) :=
  match strip_prefix "https://github.com/" s with
  | None => None
  | Some r =>
      match span_not_slash r with
      | (String a owner, String _ r') =>
          match span_not_slash r' with
          | (String b repo, _) => Some (String a owner, String b repo)
          | (EmptyString, _) => None
          end
      | _ => None
      end
  end.

(** ** Classification (audit_tools.py, lines 103-114) *)

Definition is_main_contract (file_path : string) : bool :=
  (Py.contains file_path "src/" || Py.startswith file_path "src/")
  && negb (Py.endswith file_path ".t.sol")
  && negb (Py.endswith file_path ".s.sol").

(** The loop that fills [main_contracts] and [other_files]. *)
Fixpoint classify (solidity_files main_contracts other_files : list file)
  : list file * list file :=
  match solidity_files with
  | [] => (main_contracts, other_files)
  | (file_path, download_url) :: rest =>
      if is_main_contract file_path
      then classify rest (main_contracts ++ [(file_path, download_url)])%list other_files
      else classify rest main_contracts (other_files ++ [(file_path, download_url)])%list
  end.

(** ** Rendered sections *)

Definition summary_of (repo_url : string) (n_files n_main n_other : Z) : string :=
  "=== REPOSITORY ANALYSIS SUMMARY ===" ++ "
" ++ "Repository: " ++ repo_url ++ "
" ++ "Total files found: " ++ Py.str n_files ++ "
" ++ "Main contracts: " ++ Py.str n_main ++ "
" ++ "Supporting files: " ++ Py.str n_other ++ "

".

Definition main_header (file_path : string) (size : Z) : string :=
  "
=== MAIN CONTRACT: " ++ file_path ++ " ===
" ++ "Contract size: " ++ Py.str size ++ " characters
" ++ "Complete source code:
".

Definition main_section (file_path content : string) : string :=
  main_header file_path (Py.len content) ++ content ++ "
".

Definition supporting_header (file_path : string) (size : Z) : string :=
  "
=== SUPPORTING FILE: " ++ file_path ++ " ===
" ++ "File size: " ++ Py.str size ++ " characters
".

Definition truncation_marker : string :=
  "...
[File truncated for brevity]
".

Definition supporting_section (file_path content : string) : string :=
  supporting_header file_path (Py.len content) ++
  (if 2000 <? Py.len content
   then "First 2000 characters:
" ++ Py.take 2000 content ++ truncation_marker
   else "Complete content:
" ++ content ++ "
").

Definition error_status_section (file_path : string) (status : Z) : string :=
  "
=== ERROR: " ++ file_path ++ " ===
Could not fetch file (Status: " ++ Py.str status ++ ")
".

Definition error_exception_section (file_path msg : string) : string :=
  "
=== ERROR: " ++ file_path ++ " ===
Exception: " ++ msg ++ "
".

Definition limit_notice : string :=
  "
=== OUTPUT SIZE LIMIT REACHED ===
Additional supporting files truncated.
".

Definition invalid_url_message : string :=
  "Error: Invalid GitHub URL format. Expected: https://github.com/owner/repo".

Definition no_files_message : string :=
  "No Solidity (.sol) files found in the repository.".

(** [download_url.replace(...).replace(...)] *)
Definition raw_url_of (download_url : string) : string :=
  Py.replace
    (Py.replace download_url
       "https://api.github.com/repos/" "https://raw.githubusercontent.com/")
    "/contents/" "/".

(** The accumulators of [_run]: [results] and [total_chars]. *)
Record acc := mkAcc { results : list string; total_chars : Z }.

Definition append_counted (st : acc) (file_output : string) : acc :=
  {| results := (results st ++ [file_output])%list;
     total_chars := total_chars st + Py.len file_output |}.

Definition append_uncounted (st : acc) (error_msg : string) : acc :=
  {| results := (results st ++ [error_msg])%list;
     total_chars := total_chars st |}.

(** ** The fetcher *)

Section Fetcher.

(** [os.getenv] *)
Variable getenv : string -> option string.
(** [requests.get] *)
Variable net : request -> outcome.

Definition requests_get (url : string) (headers : dict) : M response :=
  fun log =>
    let req := {| req_url := url; req_headers := headers |} in
    (match net req with
     | Returns r => Ok r
     | Raises e => Exc e
     end, (log ++ [req])%list).

(** [response.json()] *)
Definition response_json (r : response) : M (list item) :=
  match json r with
  | Some contents => ret contents
  | None => raise "Expecting value"
  end.

(** The body of the [for item in contents] loop of [_find_solidity_files];
    [recur] is the recursive call, and the value is what the iteration adds
    to [solidity_files]. *)
Definition visit_item (recur : string -> M (list file)) (it : item) : M (list file) :=
  ty <- getitem it "type" ;;
  is_sol <- (if String.eqb ty "file"
             then name <- getitem it "name" ;; ret (Py.endswith name ".sol")
             else ret false) ;;
  if (is_sol : bool)
  then p <- getitem it "path" ;;
       u <- getitem it "download_url" ;;
       ret [(p, u)]
  else ty' <- getitem it "type" ;;
       if String.eqb ty' "dir"
       then p <- getitem it "path" ;; recur p
       else ret [].

(** The loop itself.  It runs inside the [try]: an exception ends it, and
    [except Exception: pass] then returns what [solidity_files] holds. *)
Fixpoint scan_items (recur : string -> M (list file)) (contents : list item)
    (solidity_files : list file) (log : list request)
  : list file * list request :=
  match contents with
  | [] => (solidity_files, log)
  | it :: rest =>
      match visit_item recur it log with
      | (Ok found, log') => scan_items recur rest (solidity_files ++ found)%list log'
      | (Exc _, log') => (solidity_files, log')
      end
  end.

Definition api_url_of (owner repo path : string) : string :=
  "https://api.github.com/repos/" ++ owner ++ "/" ++ repo ++ "/contents/" ++ path.

(** [{k: v for k, v in headers.items() if k != 'Accept'}] *)
Definition list_headers_of (headers : dict) : dict :=
  filter (fun kv => negb (String.eqb (fst kv) "Accept")) headers.

(** [_find_solidity_files].  [depth] is the number of nested calls the
    interpreter still allows: beyond its recursion limit Python raises
    [RecursionError], an [Exception], at the call. *)
Fixpoint _find_solidity_files (depth : nat) (owner repo path : string)
    (headers : dict) : M (list file) :=
  match depth with
  | O => raise "maximum recursion depth exceeded"
  | S d =>
      fun log =>
        match requests_get (api_url_of owner repo path) (list_headers_of headers) log with
        | (Exc _, log1) => (Ok [], log1)
        | (Ok resp, log1) =>
            if negb (status_code resp =? 200) then (Ok [], log1)
            else
              match response_json resp log1 with
              | (Exc _, log2) => (Ok [], log2)
              | (Ok contents, log2) =>
                  let (solidity_files, log3) :=
                    scan_items (fun p => _find_solidity_files d owner repo p headers)
                               contents [] log2 in
                  (Ok solidity_files, log3)
              end
        end
  end.

(** [requests.get(raw_url, headers={'Authorization': headers.get('Authorization', '')})] *)
Definition fetch_file (headers : dict) (download_url : string) : M response :=
  requests_get (raw_url_of download_url)
               [("Authorization", dict_get headers "Authorization" "")].

(** One iteration of the loop over [main_contracts] (lines 129-155). *)
Definition main_step (headers : dict) (f : file) (st : acc) (log : list request)
  : acc * list request :=
  let (file_path, download_url) := f in
  match fetch_file headers download_url log with
  | (Ok file_response, log') =>
      if status_code file_response =? 200
      then (append_counted st (main_section file_path (text file_response)), log')
      else (append_uncounted st
              (error_status_section file_path (status_code file_response)), log')
  | (Exc file_error, log') =>
      (append_uncounted st (error_exception_section file_path file_error), log')
  end.

Fixpoint main_loop (headers : dict) (main_contracts : list file) (st : acc)
    (log : list request) : acc * list request :=
  match main_contracts with
  | [] => (st, log)
  | f :: rest =>
      let (st', log') := main_step headers f st log in
      main_loop headers rest st' log'
  end.

(** One iteration of the loop over [other_files] past the size check
    (lines 164-192). *)
Definition supporting_step (headers : dict) (f : file) (st : acc)
    (log : list request) : acc * list request :=
  let (file_path, download_url) := f in
  match fetch_file headers download_url log with
  | (Ok file_response, log') =>
      if status_code file_response =? 200
      then (append_counted st (supporting_section file_path (text file_response)), log')
      else (append_uncounted st
              (error_status_section file_path (status_code file_response)), log')
  | (Exc file_error, log') =>
      (append_uncounted st (error_exception_section file_path file_error), log')
  end.

(** The loop over [other_files], with its [break] (lines 158-192). *)
Fixpoint supporting_loop (headers : dict) (other_files : list file) (st : acc)
    (log : list request) : acc * list request :=
  match other_files with
  | [] => (st, log)
  | f :: rest =>
      if 100000 <? total_chars st
      then (append_uncounted st limit_notice, log)
      else
        let (st', log') := supporting_step headers f st log in
        supporting_loop headers rest st' log'
  end.

(** The request headers built at lines 88-91. *)
Definition initial_headers : dict :=
  let headers := [("Accept", "application/vnd.github.v3.raw")] in
  match getenv "GITHUB_TOKEN" with
  | Some (String a t) => dict_set headers "Authorization" ("token " ++ String a t)
  | _ => headers
  end.

(** The patch of the summary (line 197). *)
Definition final_summary_of (summary : string) (n_other full_size : Z) : string :=
  Py.replace summary "Supporting files:"
    ("Supporting files: " ++ Py.str n_other ++ "
" ++ "Total output size: " ++ Py.str full_size ++ " characters
").

(** What [_run] has when both loops are done: the lists, the summary and
    the accumulators. *)
Record rendering := mkRendering {
  r_main_contracts : list file;
  r_other_files : list file;
  r_summary : string;
  r_after_main : acc;
  r_final : acc
}.

Definition render (repo_url : string) (solidity_files : list file)
    (headers : dict) (log : list request) : rendering * list request :=
  let (main_contracts, other_files) := classify solidity_files [] [] in
  let summary :=
    summary_of repo_url (Py.llen solidity_files) (Py.llen main_contracts)
               (Py.llen other_files) in
  let st0 := {| results := [summary]; total_chars := 0 |} in
  let (st1, log1) := main_loop headers main_contracts st0 log in
  let (st2, log2) := supporting_loop headers other_files st1 log1 in
  ({| r_main_contracts := main_contracts; r_other_files := other_files;
      r_summary := summary; r_after_main := st1; r_final := st2 |}, log2).

(** Lines 194-199. *)
Definition finish (r : rendering) : string :=
  let full_output := Py.join (results (r_final r)) in
  let final_summary :=
    final_summary_of (r_summary r) (Py.llen (r_other_files r)) (Py.len full_output) in
  Py.replace full_output (r_summary r) final_summary.

(** The [try] block of [_run] (lines 80-199). *)
Definition run_body (depth : nat) (repo_url file_pattern : string) : M string :=
  match match_github_url (Py.rstrip repo_url "/") with
  | None => ret invalid_url_message
  | Some (owner, repo) =>
      let headers := initial_headers in
      solidity_files <- _find_solidity_files depth owner repo "" headers ;;
      match solidity_files with
      | [] => ret no_files_message
      | _ :: _ =>
          fun log =>
            let (r, log') := render repo_url solidity_files headers log in
            (Ok (finish r), log')
      end
  end.

(** [_run]: the result and the requests made, in order.  [depth] is the
    number of nested calls still allowed when the body runs. *)
Definition _run (depth : nat) (repo_url file_pattern : string)
  : string * list request :=
  match run_body depth repo_url file_pattern [] with
  | (Ok out, log) => (out, log)
  | (Exc e, log) => ("Error: " ++ e, log)
  end.

End Fetcher.


(** * Vocabulary of the properties *)

(** ** Classification *)

(** [p] occurs somewhere in [s]. *)
Definition occurs_in (p s : string) : Prop := exists l r, s = l ++ p ++ r.

(** [s] ends with [p]. *)
Definition ends_in (p s : string) : Prop := exists l, s = l ++ p.

(** [s] has no slash. *)
Definition no_slash (s : string) : Prop := Py.contains s "/" = false.

(** The name of a file: what follows the last slash of its path. *)
Fixpoint basename (path : string) : string :=
  match path with
  | EmptyString => EmptyString
  | String a rest =>
      if Py.contains rest "/" then basename rest
      else if Ascii.eqb a "/" then rest else path
  end.

(** The rule of the specification: under [src/], and neither a test file
    nor a script file. *)
Definition main_path (file_path : string) : Prop :=
  occurs_in "src/" file_path /\
  ~ ends_in ".t.sol" file_path /\ ~ ends_in ".s.sol" file_path.

(** ** URL validation *)

(** What the pattern [https://github\.com/([^/]+)/([^/]+)] accepts at the
    start of [s], and the two groups it captures: the owner and the
    repository are not empty and hold no slash, and the repository runs up
    to the next slash or to the end. *)
Definition github_shape (s owner repo : string) : Prop :=
  exists rest,
    s = "https://github.com/" ++ owner ++ "/" ++ repo ++ rest /\
    owner <> "" /\ repo <> "" /\ no_slash owner /\ no_slash repo /\
    (rest = "" \/ exists r, rest = "/" ++ r).

(** ** Rendering *)

Section RenderingVocabulary.

Variable net : request -> outcome.
Variable headers : dict.

(** The request that [fetch_file] sends for a discovered file. *)
Definition raw_request (f : file) : request :=
  {| req_url := raw_url_of (snd f);
     req_headers := [("Authorization", dict_get headers "Authorization" "")] |}.

(** The section that the loop over [main_contracts] appends for [f]. *)
Definition main_block (f : file) : string :=
  match net (raw_request f) with
  | Returns r =>
      if status_code r =? 200 then main_section (fst f) (text r)
      else error_status_section (fst f) (status_code r)
  | Raises e => error_exception_section (fst f) e
  end.

(** The section that the loop over [other_files] appends for [f], when it
    gets to [f]. *)
Definition supporting_block (f : file) : string :=
  match net (raw_request f) with
  | Returns r =>
      if status_code r =? 200 then supporting_section (fst f) (text r)
      else error_status_section (fst f) (status_code r)
  | Raises e => error_exception_section (fst f) e
  end.

(** The content of [f] when its fetch succeeds. *)
Definition fetched (f : file) : option string :=
  match net (raw_request f) with
  | Returns r => if status_code r =? 200 then Some (text r) else None
  | Raises _ => None
  end.

(** What a block adds to [total_chars]: its length when the fetch
    succeeded, nothing for an error section. *)
Definition counted (block : file -> string) (f : file) : Z :=
  match fetched f with
  | Some _ => Py.len (block f)
  | None => 0
  end.

Definition counted_sum (block : file -> string) (files : list file) : Z :=
  fold_right (fun f n => counted block f + n) 0 files.

(** The files of [other_files] that the loop reaches before its [break],
    from a counter at [total]. *)
Fixpoint reached (total : Z) (other_files : list file) : list file :=
  match other_files with
  | [] => []
  | f :: rest =>
      if 100000 <? total then []
      else f :: reached (total + counted supporting_block f) rest
  end.

(** The files left when the loop breaks. *)
Fixpoint skipped (total : Z) (other_files : list file) : list file :=
  match other_files with
  | [] => []
  | f :: rest =>
      if 100000 <? total then other_files
      else skipped (total + counted supporting_block f) rest
  end.

(** The notice is appended when the loop breaks, that is, when some file is
    left. *)
Definition notice_for (left : list file) : list string :=
  match left with
  | [] => []
  | _ :: _ => [limit_notice]
  end.


End RenderingVocabulary.

(** The kinds of block, told by their first line. *)
Definition is_summary_block (s : string) : bool :=
  Py.startswith s "=== REPOSITORY ANALYSIS SUMMARY ===".

Definition is_main_contract_block (s : string) : bool :=
  Py.startswith s "
=== MAIN CONTRACT: ".

Definition is_supporting_file_block (s : string) : bool :=
  Py.startswith s "
=== SUPPORTING FILE: ".


(** The blocks that hold rendered content. *)
Definition is_content_block (s : string) : bool :=
  is_main_contract_block s || is_supporting_file_block s.

(** The number of times the truncation notice was appended. *)
Definition notices (results : list string) : nat :=
  count_occ string_dec results limit_notice.


(** The document reports [n] as its total size. *)
Definition reports_size (document : string) (n : Z) : Prop :=
  occurs_in ("Total output size: " ++ Py.str n ++ " characters") document.


(** ** Discovery *)

Section DiscoveryVocabulary.

Variable net : request -> outcome.

(** The request that lists the directory [path]. *)
Definition listing_request (owner repo path : string) (headers : dict) : request :=
  {| req_url := api_url_of owner repo path;
     req_headers := list_headers_of headers |}.

(** The listing call fails: a transport error or a status other than 200. *)
Definition listing_fails (req : request) : Prop :=
  match net req with
  | Raises _ => True
  | Returns r => status_code r <> 200
  end.

(** A call extends the log by requests that satisfy [Q]. *)
Definition extends_log {A} (Q : request -> Prop) (m : M A) : Prop :=
  forall log, exists more, snd (m log) = (log ++ more)%list /\ Forall Q more.

End DiscoveryVocabulary.

(** * Example repositories

    Small worlds on which the fetcher is run: an environment for
    [os.getenv] and a network for [requests.get]. *)

Module Examples.

(** A listing entry, as the contents API returns it. *)
Definition entry (type name path download_url : string) : item :=
  [("name", name); ("path", path); ("download_url", download_url); ("type", type)].

Definition raw (path : string) : string :=
  "https://raw.githubusercontent.com/o/r/main/" ++ path.

Definition sol (path name : string) : item := entry "file" name path (raw path).

Definition dir (path : string) : item := entry "dir" path path "".

Definition listing (contents : list item) : outcome :=
  Returns {| status_code := 200; text := ""; json := Some contents |}.

Definition body (content : string) : outcome :=
  Returns {| status_code := 200; text := content; json := None |}.

Definition status (code : Z) : outcome :=
  Returns {| status_code := code; text := ""; json := None |}.

(** A network given by a table from URL to outcome; anything else is 404. *)
Fixpoint serve (table : list (string * outcome)) (req : request) : outcome :=
  match table with
  | [] => status 404
  | (url, out) :: table' =>
      if String.eqb (req_url req) url then out else serve table' req
  end.

Definition api (path : string) : string :=
  "https://api.github.com/repos/o/r/contents/" ++ path.

Definition no_token (name : string) : option string := None.

Definition with_token (name : string) : option string :=
  if String.eqb name "GITHUB_TOKEN" then Some "s3cr3t" else None.

Definition repo_url : string := "https://github.com/o/r".

(** [src/Token.sol] and [test/Token.t.sol], both fetched. *)
Definition token_repo : request -> outcome :=
  serve [ (api "", listing [dir "src"; dir "test"]);
          (api "src", listing [sol "src/Token.sol" "Token.sol"]);
          (api "test", listing [sol "test/Token.t.sol" "Token.t.sol"]);
          (raw "src/Token.sol", body "contract Token {}");
          (raw "test/Token.t.sol", body "contract TokenTest {}") ].

Definition token_files : list file :=
  [ ("src/Token.sol", raw "src/Token.sol");
    ("test/Token.t.sol", raw "test/Token.t.sol") ].

(** A main contract that almost fills the budget, and one small test. *)
Definition full_repo : request -> outcome :=
  serve [ (api "", listing [sol "src/Big.sol" "Big.sol"; sol "test/Small.t.sol" "Small.t.sol"]);
          (raw "src/Big.sol", body (Py.repeat_char "a" (Z.to_nat 99900)));
          (raw "test/Small.t.sol", body (Py.repeat_char "b" (Z.to_nat 100))) ].

Definition full_files : list file :=
  [ ("src/Big.sol", raw "src/Big.sol");
    ("test/Small.t.sol", raw "test/Small.t.sol") ].

(** A main contract over the budget, alone. *)
Definition huge_repo : request -> outcome :=
  serve [ (api "", listing [sol "src/Huge.sol" "Huge.sol"]);
          (raw "src/Huge.sol", body (Py.repeat_char "a" (Z.to_nat 100000))) ].

Definition huge_files : list file := [ ("src/Huge.sol", raw "src/Huge.sol") ].

(** A main contract over the budget, and two tests. *)
Definition huge_tested_repo : request -> outcome :=
  serve [ (api "", listing [sol "src/Huge.sol" "Huge.sol"; dir "test"]);
          (api "test", listing [sol "test/A.t.sol" "A.t.sol"; sol "test/B.t.sol" "B.t.sol"]);
          (raw "src/Huge.sol", body (Py.repeat_char "a" (Z.to_nat 100000)));
          (raw "test/A.t.sol", body "contract A {}");
          (raw "test/B.t.sol", body "contract B {}") ].

Definition huge_tested_files : list file :=
  [ ("src/Huge.sol", raw "src/Huge.sol");
    ("test/A.t.sol", raw "test/A.t.sol");
    ("test/B.t.sol", raw "test/B.t.sol") ].



(** The listing of [src] fails; [test] is listed. *)
Definition partial_repo : request -> outcome :=
  serve [ (api "", listing [dir "src"; dir "test"]);
          (api "src", status 500);
          (api "test", listing [sol "test/Token.t.sol" "Token.t.sol"]);
          (raw "test/Token.t.sol", body "contract TokenTest {}") ].

End Examples.

(** * The entry point (main.py)

    [run] reads the command line, checks the URL and starts the crew.
    [print] is a list of lines; [sys.exit] ends the run with its code; the
    crew itself, a call into the orchestration library, is the variable
    [kickoff], which returns or raises. *)

Module Main.

Inductive ending :=
| Exited (code : Z)
| Returned
| Raised (msg : string).

Section Run.

(** [SmartContractAuditAgentCrew().crew().kickoff(inputs=inputs)] *)
Variable kickoff : dict -> result unit.

(** [run()] (main.py, lines 13-38), on [sys.argv]: the lines printed and
    how the call ends. *)
Definition run (argv : list string) : list string * ending :=
  if Py.llen argv <? 2
  then ([ "Error: Please provide a GitHub repository URL";
          "Usage: python src/smart_contract_audit_agent/main.py <github_url>";
          "Example: python src/smart_contract_audit_agent/main.py https://github.com/owner/repo" ],
        Exited 1)
  else
    let contract_source := nth 1 argv "" in
    if negb (Py.startswith contract_source "https://github.com")
    then ([ "Error: Please provide a valid GitHub repository URL";
            "Expected format: https://github.com/owner/repo" ],
          Exited 1)
    else
      let inputs := [("contract_source", contract_source)] in
      match kickoff inputs with
      | Ok _ => ([], Returned)
      | Exc e => ([], Raised ("An error occurred while running the crew: " ++ e))
      end.

End Run.

End Main.

(** * Vocabulary of the further properties *)

Section DiscoveryEntries.

Variable net : request -> outcome.

(** [it] is an entry of the listing that answers [req], with status 200. *)
Definition listed (req : request) (it : item) : Prop :=
  exists r contents,
    net req = Returns r /\ status_code r = 200 /\
    json r = Some contents /\ In it contents.

End DiscoveryEntries.

(** [it] is a [file] entry named [*.sol], with path [p] and download URL
    [u]. *)
Definition sol_entry (it : item) (p u : string) : Prop :=
  dict_lookup it "type" = Some "file" /\
  (exists name, dict_lookup it "name" = Some name /\ Py.endswith name ".sol" = true) /\
  dict_lookup it "path" = Some p /\
  dict_lookup it "download_url" = Some u.

(** An entry that the loop of [_find_solidity_files] can read: it has a
    [type]; a [file] entry has a [name], and a [path] and a [download_url]
    when the name ends in [.sol]; a [dir] entry has a [path]. *)
Definition readable_entry (it : item) : Prop :=
  exists ty,
    dict_lookup it "type" = Some ty /\
    (ty = "file" ->
     exists name,
       dict_lookup it "name" = Some name /\
       (Py.endswith name ".sol" = true ->
        dict_lookup it "path" <> None /\ dict_lookup it "download_url" <> None)) /\
    (ty = "dir" -> dict_lookup it "path" <> None).

(** * More example repositories *)

Module MoreExamples.

Import Examples.

(** A repository with a README and nothing else. *)
Definition readme_repo : request -> outcome :=
  serve [ (api "", listing [entry "file" "README.md" "README.md" (raw "README.md")]) ].

(** A listing with an entry that has no [type], between two contracts. *)
Definition untyped : item := [("name", "B.sol"); ("path", "B.sol")].

Definition untyped_repo : request -> outcome :=
  serve [ (api "", listing [sol "A.sol" "A.sol"; untyped; sol "C.sol" "C.sol"]) ].

(** A contract in a directory named [contents]. *)
Definition contents_path : string := "docs/contents/Vault.sol".

(** An environment with an empty token. *)
Definition empty_token (name : string) : option string :=
  if String.eqb name "GITHUB_TOKEN" then Some "" else None.

(** A crew that returns. *)
Definition quiet_crew (inputs : dict) : result unit := Ok tt.

End MoreExamples.

(** * The words of the specification

    Readings of two phrases of the specification that the code does not
    follow to the letter. *)

(** The path has a [src/] segment: a directory named [src], so that [src/]
    opens the path or comes right after a slash. *)
Definition in_src_directory (file_path : string) : Prop :=
  (exists rest, file_path = "src/" ++ rest) \/
  (exists dir rest, file_path = dir ++ "/src/" ++ rest).

(** The rule as the specification words it: in a [src] directory, with a
    name that ends in neither [.t.sol] nor [.s.sol]. *)
Definition main_by_directory (file_path : string) : Prop :=
  in_src_directory file_path /\
  ~ ends_in ".t.sol" (basename file_path) /\ ~ ends_in ".s.sol" (basename file_path).

(** The URL of a repository and no more: [https://github.com/<owner>/<repo>],
    with slashes at its end allowed. *)
Definition repository_url (url : string) : Prop :=
  exists owner repo n,
    owner <> "" /\ repo <> "" /\ no_slash owner /\ no_slash repo /\
    url = "https://github.com/" ++ owner ++ "/" ++ repo ++ Py.repeat_char "/" n.

Module RevisedExamples.

Import Examples.




(** A contract in a directory whose name ends in [src]. *)
Definition mysrc_file : file := ("mysrc/Baz.sol", raw "mysrc/Baz.sol").

End RevisedExamples.
(** * Properties *)

(** ** Strings *)

Module PyFacts.
Import Py.

Lemma append_nil_r (s : string) : s ++ "" = s.
Proof. induction s as [|a s IH]; simpl; [reflexivity | now rewrite IH]. Qed.

Lemma append_assoc (s t u : string) : (s ++ t) ++ u = s ++ t ++ u.
Proof. induction s as [|a s IH]; simpl; [reflexivity | now rewrite IH]. Qed.

Lemma length_append (s t : string) :
  String.length (s ++ t) = (String.length s + String.length t)%nat.
Proof. induction s as [|a s IH]; simpl; [reflexivity | now rewrite IH]. Qed.

Lemma len_append (s t : string) : len (s ++ t) = len s + len t.
Proof. unfold len. rewrite length_append. lia. Qed.

Lemma len_nonneg (s : string) : 0 <= len s.
Proof. unfold len. lia. Qed.

Lemma len_String (a : ascii) (s : string) : len (String a s) = 1 + len s.
Proof. unfold len. simpl String.length. lia. Qed.

Lemma append_inv_head (s t u : string) : s ++ t = s ++ u -> t = u.
Proof.
  induction s as [|a s IH]; simpl; intros H; [exact H|].
  injection H as H. auto.
Qed.

(** Two decompositions of one string with tails of the same length agree. *)
Lemma append_inv_tail (s s' t t' : string) :
  s ++ t = s' ++ t' -> String.length t = String.length t' -> s = s' /\ t = t'.
Proof.
  revert s'. induction s as [|a s IH]; intros [|a' s'] H L; simpl in *.
  - auto.
  - exfalso. apply (f_equal String.length) in H. simpl in H.
    rewrite length_append in H. lia.
  - exfalso. apply (f_equal String.length) in H. simpl in H.
    rewrite length_append in H. lia.
  - injection H as Ha H. destruct (IH _ H L) as [-> ->]. subst. auto.
Qed.

Lemma startswith_iff (s p : string) :
  startswith s p = true <-> exists r, s = p ++ r.
Proof.
  revert s. induction p as [|b p IH]; intros s; simpl.
  - split; [intros _; now exists s | intros _; now destruct s].
  - destruct s as [|a s]; simpl.
    + split; [discriminate | intros [r H]; discriminate].
    + rewrite andb_true_iff, Ascii.eqb_eq, IH. split.
      * intros [-> [r ->]]. now exists r.
      * intros [r H]. injection H as -> ->. split; [reflexivity | now exists r].
Qed.

Lemma startswith_append (p r : string) : startswith (p ++ r) p = true.
Proof. apply startswith_iff. now exists r. Qed.

Lemma endswith_iff (s p : string) :
  endswith s p = true <-> exists r, s = r ++ p.
Proof.
  induction s as [|a s IH]; cbn [endswith].
  - rewrite orb_false_r, String.eqb_eq. split.
    + intros <-. now exists "".
    + intros [[|b r] H]; simpl in H; [auto | discriminate].
  - rewrite orb_true_iff, String.eqb_eq, IH. split.
    + intros [<- | [r ->]]; [now exists "" | now exists (String a r)].
    + intros [[|b r] H]; simpl in H; [now left | right].
      injection H as -> ->. now exists r.
Qed.

Lemma contains_iff (s p : string) :
  contains s p = true <-> exists l r, s = l ++ p ++ r.
Proof.
  induction s as [|a s IH]; cbn [contains].
  - rewrite orb_false_r, startswith_iff. split.
    + intros [r H]. now exists "", r.
    + intros [[|b l] [r H]]; simpl in H; [now exists r | discriminate].
  - rewrite orb_true_iff, IH, startswith_iff. split.
    + intros [[r H] | [l [r ->]]]; [now exists "", r | now exists (String a l), r].
    + intros [[|b l] [r H]]; simpl in H; [left; now exists r | right].
      injection H as -> ->. now exists l, r.
Qed.

Lemma startswith_contains (s p : string) :
  startswith s p = true -> contains s p = true.
Proof. destruct s; simpl; intros ->; reflexivity. Qed.

(** Two ways to split one string: one of the heads is a head of the other. *)
Lemma append_eq_cases (s t s' t' : string) :
  s ++ t = s' ++ t' ->
  (exists m, s = s' ++ m /\ t' = m ++ t) \/ (exists m, s' = s ++ m /\ t = m ++ t').
Proof.
  revert s'. induction s as [|a s IH]; intros s' H.
  - right. exists s'. now split.
  - destruct s' as [|a' s'].
    + left. exists (String a s). now split.
    + cbn in H. injection H as <- H. destruct (IH _ H) as [[m [-> ->]] | [m [-> ->]]].
      * left. now exists m.
      * right. now exists m.
Qed.

(** *** [replace] *)

Lemma replace_from_skip (old new l s : string) :
  replace_from old new (String.length l) (l ++ s) = replace_from old new O s.
Proof.
  induction l as [|a l IH]; simpl; [|exact IH].
  destruct s; reflexivity.
Qed.

Lemma replace_nil (old new : string) :
  old <> "" -> replace "" old new = "".
Proof. destruct old; [congruence | reflexivity]. Qed.

(** An occurrence at the front is replaced, and the search goes on after it. *)
Lemma replace_hit (old new s : string) :
  old <> "" -> replace (old ++ s) old new = new ++ replace s old new.
Proof.
  destruct old as [|b old]; [congruence|]. intros _.
  unfold replace. cbn [append replace_from].
  change (String b (old ++ s)) with (String b old ++ s).
  rewrite startswith_append. cbn [String.length Nat.pred].
  now rewrite replace_from_skip.
Qed.

(** Where no occurrence starts, the character is kept. *)
Lemma replace_miss (old new : string) (a : ascii) (s : string) :
  startswith (String a s) old = false ->
  replace (String a s) old new = String a (replace s old new).
Proof.
  intros H. destruct old as [|b old]; [discriminate|].
  unfold replace. cbn [replace_from]. now rewrite H.
Qed.

Lemma replace_absent (old new s : string) :
  contains s old = false -> replace s old new = s.
Proof.
  induction s as [|a s IH]; intros H.
  - destruct old; [discriminate | reflexivity].
  - cbn [contains] in H. apply orb_false_iff in H as [H1 H2].
    rewrite replace_miss by exact H1. now rewrite IH.
Qed.

(** The leftmost occurrence: nothing before it changes. *)
Lemma replace_first (old new s : string) :
  old <> "" -> contains s old = true ->
  exists l r, s = l ++ old ++ r /\
              replace s old new = l ++ new ++ replace r old new.
Proof.
  intros Hne. induction s as [|a s IH]; intros H.
  - cbn in H. rewrite orb_false_r in H. destruct old; [congruence | discriminate].
  - destruct (startswith (String a s) old) eqn:E.
    + apply startswith_iff in E as [r E]. exists "", r. split; [exact E|].
      rewrite E. now rewrite replace_hit.
    + cbn [contains] in H. rewrite E in H. cbn in H.
      destruct (IH H) as [l [r [-> Hr]]].
      exists (String a l), r. split; [reflexivity|].
      rewrite replace_miss by exact E. now rewrite Hr.
Qed.

(** A replacement by a string at least as long never shortens. *)
Lemma len_replace_from_ge (old new : string) :
  old <> "" -> len old <= len new ->
  forall s k, len s - Z.of_nat k <= len (replace_from old new k s).
Proof.
  intros Hne Hlen. induction s as [|a s IH]; intros k.
  - cbn. unfold len; simpl. lia.
  - rewrite len_String. destruct k as [|k]; cbn [replace_from].
    + destruct (startswith (String a s) old) eqn:E.
      * rewrite len_append.
        specialize (IH (Nat.pred (String.length old))).
        apply startswith_iff in E as [r E].
        destruct old as [|b old]; [congruence|].
        cbn [String.length Nat.pred] in *. rewrite len_String in Hlen.
        unfold len in *. lia.
      * rewrite len_String. specialize (IH O). lia.
    + specialize (IH k). lia.
Qed.

Lemma len_replace_ge (s old new : string) :
  old <> "" -> len old <= len new -> len s <= len (replace s old new).
Proof.
  intros Hne Hlen. destruct old as [|b old]; [congruence|].
  unfold replace.
  pose proof (len_replace_from_ge (String b old) new Hne Hlen s O). lia.
Qed.

(** *** Slices *)

Lemma length_take (n : nat) (s : string) :
  String.length (take n s) = Nat.min n (String.length s).
Proof.
  revert s. induction n as [|n IH]; intros [|a s]; cbn; auto.
Qed.


Lemma len_take_2000 (s : string) : 2000 < len s -> len (take 2000 s) = 2000.
Proof.
  unfold len. rewrite length_take. intros H.
  rewrite Nat.min_l by lia. reflexivity.
Qed.

(** *** [join] *)

Lemma join_app (l l' : list string) : join (l ++ l') = join l ++ join l'.
Proof.
  induction l as [|x l IH]; simpl; [reflexivity|].
  now rewrite IH, append_assoc.
Qed.


Lemma llen_app {A} (l l' : list A) : llen (l ++ l') = llen l + llen l'.
Proof. unfold llen. rewrite length_app. lia. Qed.

End PyFacts.

(** ** Classification *)

Lemma is_main_contract_iff (file_path : string) :
  is_main_contract file_path = true <-> main_path file_path.
Proof.
  unfold is_main_contract, main_path, occurs_in, ends_in.
  rewrite !andb_true_iff, !negb_true_iff, orb_true_iff.
  rewrite <- !PyFacts.contains_iff, <- !PyFacts.endswith_iff.
  rewrite <- !not_true_iff_false.
  split.
  - intros [[[H | H] Ht] Hs]; auto using PyFacts.startswith_contains.
  - intros [H [Ht Hs]]; auto.
Qed.

Lemma no_slash_String (a : ascii) (s : string) :
  no_slash (String a s) <-> a <> "/"%char /\ no_slash s.
Proof.
  unfold no_slash. cbn [Py.contains Py.startswith].
  replace (Py.startswith s "") with true by now destruct s.
  rewrite orb_false_iff, andb_true_r. destruct (Ascii.eqb_spec a "/"); split.
  - intros [? _]. discriminate.
  - intros [? _]. contradiction.
  - intros [_ ?]. auto.
  - intros [_ ?]. auto.
Qed.

(** A path is a directory part, empty or ending in a slash, and a name
    that holds no slash. *)
Lemma basename_split (path : string) :
  exists dir,
    path = dir ++ basename path /\ no_slash (basename path) /\
    (dir = "" \/ exists d, dir = d ++ "/").
Proof.
  induction path as [|a rest IH].
  - exists "". repeat split. now left.
  - cbn [basename]. destruct (Py.contains rest "/") eqn:E.
    + destruct IH as [dir [Hp [Hn Hd]]]. exists (String a dir).
      split; [cbn; now rewrite <- Hp|]. split; [exact Hn|]. right.
      destruct Hd as [-> | [d ->]].
      * exfalso. cbn in Hp. unfold no_slash in Hn. congruence.
      * now exists (String a d).
    + destruct (Ascii.eqb_spec a "/") as [-> | N].
      * exists "/". repeat split; [exact E|]. right. now exists "".
      * exists "". repeat split; [|now left].
        apply no_slash_String. now split.
Qed.

(** To end in a suffix that holds no slash is a property of the name. *)
Lemma ends_in_basename (suffix path : string) :
  no_slash suffix -> (ends_in suffix path <-> ends_in suffix (basename path)).
Proof.
  intros Hs. destruct (basename_split path) as [dir [Hp [Hn Hd]]]. split.
  - intros [l E]. rewrite Hp in E at 1.
    destruct (PyFacts.append_eq_cases _ _ _ _ E) as [[m [-> ->]] | [m [El Es]]].
    + destruct m as [|c m]; [now exists ""|]. exfalso.
      destruct Hd as [Hd | [d Hd]]; [destruct l; discriminate|].
      symmetry in Hd.
      destruct (PyFacts.append_eq_cases _ _ _ _ Hd) as [[k [-> Ek]] | [k [-> Ek]]].
      * unfold no_slash in Hs.
        assert (Py.contains (String c m ++ basename path) "/" = true) as Hc
          by (apply PyFacts.contains_iff; exists k, (basename path);
              rewrite Ek, PyFacts.append_assoc; reflexivity).
        congruence.
      * destruct k as [|c' k]; [|destruct k; discriminate Ek].
        cbn in Ek. unfold no_slash in Hs.
        assert (Py.contains (String c m ++ basename path) "/" = true) as Hc
          by (apply PyFacts.contains_iff; exists "", (basename path);
              rewrite <- Ek; reflexivity).
        congruence.
    + now exists m.
  - intros [l E]. exists (dir ++ l). rewrite Hp at 1. rewrite E.
    now rewrite PyFacts.append_assoc.
Qed.

Lemma classify_filter (solidity_files main_contracts other_files : list file) :
  classify solidity_files main_contracts other_files =
  ((main_contracts ++ filter (fun f => is_main_contract (fst f)) solidity_files)%list,
   (other_files ++ filter (fun f => negb (is_main_contract (fst f))) solidity_files)%list).
Proof.
  revert main_contracts other_files.
  induction solidity_files as [|[file_path download_url] rest IH]; intros m o.
  - cbn. now rewrite !app_nil_r.
  - cbn [classify filter fst].
    destruct (is_main_contract file_path); cbn [negb]; rewrite IH, <- ?app_assoc;
      reflexivity.
Qed.

(** A path ending in [foo.sol] ends in neither [.t.sol] nor [.s.sol]. *)
Lemma ends_in_same_length (p q l : string) :
  String.length p = String.length q -> ends_in p (l ++ q) -> p = q.
Proof.
  intros L [l' H]. symmetry in L.
  now destruct (PyFacts.append_inv_tail _ _ _ _ H L) as [_ ->].
Qed.


(** ** The two rendering loops *)

Section Rendering.

Variable net : request -> outcome.
Variable headers : dict.

Lemma main_step_eq (f : file) (st : acc) (log : list request) :
  main_step net headers f st log =
  ({| results := results st ++ [main_block net headers f];
      total_chars := total_chars st + counted net headers (main_block net headers) f |},
   (log ++ [raw_request headers f])%list).
Proof.
  destruct f as [file_path download_url].
  unfold main_step, fetch_file, requests_get, main_block, counted, fetched,
    raw_request, append_counted, append_uncounted.
  cbn [fst snd].
  destruct (net _) as [r | e]; [|now rewrite Z.add_0_r].
  destruct (status_code r =? 200); [reflexivity | now rewrite Z.add_0_r].
Qed.

Lemma supporting_step_eq (f : file) (st : acc) (log : list request) :
  supporting_step net headers f st log =
  ({| results := results st ++ [supporting_block net headers f];
      total_chars :=
        total_chars st + counted net headers (supporting_block net headers) f |},
   (log ++ [raw_request headers f])%list).
Proof.
  destruct f as [file_path download_url].
  unfold supporting_step, fetch_file, requests_get, supporting_block, counted,
    fetched, raw_request, append_counted, append_uncounted.
  cbn [fst snd].
  destruct (net _) as [r | e]; [|now rewrite Z.add_0_r].
  destruct (status_code r =? 200); [reflexivity | now rewrite Z.add_0_r].
Qed.

(** The loop over [main_contracts] appends one block per file, in order,
    and sends one request per file. *)
Lemma main_loop_eq (main_contracts : list file) (st : acc) (log : list request) :
  main_loop net headers main_contracts st log =
  ({| results := results st ++ map (main_block net headers) main_contracts;
      total_chars :=
        total_chars st
        + counted_sum net headers (main_block net headers) main_contracts |},
   (log ++ map (raw_request headers) main_contracts)%list).
Proof.
  revert st log. induction main_contracts as [|f rest IH]; intros st log.
  - cbn. rewrite !app_nil_r, Z.add_0_r. now destruct st.
  - cbn [main_loop]. rewrite main_step_eq, IH.
    cbn [results total_chars map counted_sum fold_right].
    rewrite <- !app_assoc. cbn [app]. f_equal. f_equal. unfold counted_sum. lia.
Qed.

(** The loop over [other_files] appends one block per file reached, in
    order, then the notice if it broke; it sends one request per file
    reached and none for a file left. *)
Lemma supporting_loop_eq (other_files : list file) (st : acc) (log : list request) :
  let done := reached net headers (total_chars st) other_files in
  supporting_loop net headers other_files st log =
  ({| results := results st
                 ++ map (supporting_block net headers) done
                 ++ notice_for (skipped net headers (total_chars st) other_files);
      total_chars :=
        total_chars st + counted_sum net headers (supporting_block net headers) done |},
   (log ++ map (raw_request headers) done)%list).
Proof.
  cbv zeta. revert st log. induction other_files as [|f rest IH]; intros st log.
  - cbn. rewrite !app_nil_r, Z.add_0_r. now destruct st.
  - cbn [supporting_loop reached skipped].
    destruct (100000 <? total_chars st) eqn:E.
    + cbn. rewrite app_nil_r, Z.add_0_r. reflexivity.
    + rewrite supporting_step_eq, IH.
      cbn [results total_chars map counted_sum fold_right].
      rewrite <- !app_assoc. cbn [app]. f_equal. f_equal. unfold counted_sum. lia.
Qed.

(** The files reached and the files left make up [other_files]. *)
Lemma reached_skipped (total : Z) (other_files : list file) :
  other_files =
  (reached net headers total other_files ++ skipped net headers total other_files)%list.
Proof.
  revert total. induction other_files as [|f rest IH]; intros total; cbn.
  - reflexivity.
  - destruct (100000 <? total); cbn; [reflexivity | now rewrite <- IH].
Qed.

(** A file is reached only with the counter within the limit. *)
Lemma reached_within (total : Z) (other_files before after : list file) (f : file) :
  reached net headers total other_files = (before ++ f :: after)%list ->
  total + counted_sum net headers (supporting_block net headers) before <= 100000.
Proof.
  revert total before. induction other_files as [|g rest IH]; intros total before H.
  - cbn in H. now destruct before.
  - cbn in H. destruct (100000 <? total) eqn:E; [now destruct before|].
    apply Z.ltb_ge in E. destruct before as [|b before]; cbn in H.
    + cbn. lia.
    + injection H as -> H. apply IH in H. cbn [counted_sum fold_right].
      unfold counted_sum in H. lia.
Qed.

(** Files are left only with the counter over the limit. *)
Lemma skipped_over (total : Z) (other_files : list file) :
  skipped net headers total other_files <> [] ->
  100000 < total + counted_sum net headers (supporting_block net headers)
                     (reached net headers total other_files).
Proof.
  revert total. induction other_files as [|g rest IH]; intros total H.
  - now cbn in H.
  - cbn in H |- *. destruct (100000 <? total) eqn:E.
    + apply Z.ltb_lt in E. cbn. lia.
    + apply IH in H. cbn [counted_sum fold_right]. unfold counted_sum in H. lia.
Qed.

End Rendering.

(** ** Discovery *)

Section Discovery.

Variable net : request -> outcome.

(** An iteration either touches no directory, or is the recursive call on
    the path of a [dir] entry. *)
Lemma visit_item_cases (recur : string -> M (list file)) (it : item)
    (log : list request) :
  (exists res, visit_item recur it log = (res, log)) \/
  (exists p, dict_lookup it "type" = Some "dir" /\ dict_lookup it "path" = Some p /\
             visit_item recur it log = recur p log).
Proof.
  unfold visit_item, bind, getitem, ret, raise.
  destruct (dict_lookup it "type") as [ty|] eqn:Ety; cbn; [|left; eauto].
  destruct (String.eqb ty "file") eqn:Efile; cbn.
  - destruct (dict_lookup it "name") as [name|]; cbn; [|left; eauto].
    destruct (Py.endswith name ".sol"); cbn.
    + destruct (dict_lookup it "path") as [p|]; cbn; [|left; eauto].
      destruct (dict_lookup it "download_url") as [u|]; cbn; left; eauto.
    + apply String.eqb_eq in Efile. subst ty. cbn. left; eauto.
  - destruct (String.eqb ty "dir") eqn:Edir; cbn; [|left; eauto].
    apply String.eqb_eq in Edir. subst ty.
    destruct (dict_lookup it "path") as [p|] eqn:Ep; cbn; [|left; eauto].
    right. exists p. split; [reflexivity|]. split; reflexivity.
Qed.

(** The iteration on a [dir] entry is the recursive call. *)
Lemma visit_item_dir (recur : string -> M (list file)) (it : item) (p : string)
    (log : list request) :
  dict_lookup it "type" = Some "dir" -> dict_lookup it "path" = Some p ->
  visit_item recur it log = recur p log.
Proof.
  intros Ety Ep. unfold visit_item, bind, getitem, ret, raise. rewrite Ety. cbn.
  rewrite Ep. cbn. reflexivity.
Qed.

(** The iteration on a [file] entry named [*.sol] records the entry. *)
Lemma visit_item_sol (recur : string -> M (list file)) (it : item)
    (name p u : string) (log : list request) :
  dict_lookup it "type" = Some "file" -> dict_lookup it "name" = Some name ->
  Py.endswith name ".sol" = true ->
  dict_lookup it "path" = Some p -> dict_lookup it "download_url" = Some u ->
  visit_item recur it log = (Ok [(p, u)], log).
Proof.
  intros Ety En Es Ep Eu. unfold visit_item, bind, getitem, ret, raise.
  rewrite Ety. cbn. rewrite En. cbn. rewrite Es, Ep. cbn. now rewrite Eu.
Qed.

Lemma scan_items_extends (Q : request -> Prop) (recur : string -> M (list file)) :
  (forall p, extends_log Q (recur p)) ->
  forall contents solidity_files log,
  exists more,
    snd (scan_items recur contents solidity_files log) = (log ++ more)%list /\
    Forall Q more.
Proof.
  intros Hrec. induction contents as [|it rest IH]; intros acc log.
  - exists []. cbn. now rewrite app_nil_r.
  - cbn [scan_items].
    assert (exists more, snd (visit_item recur it log) = (log ++ more)%list /\
                         Forall Q more) as [m1 [E1 F1]].
    { destruct (visit_item_cases recur it log) as [[res E] | [p [_ [_ E]]]].
      - exists []. rewrite E. cbn. now rewrite app_nil_r.
      - rewrite E. apply Hrec. }
    destruct (visit_item recur it log) as [[found | e] log'] eqn:Ev; cbn in E1; subst log'.
    + destruct (IH (acc ++ found)%list (log ++ m1)%list) as [m2 [E2 F2]].
      exists (m1 ++ m2)%list. rewrite E2, app_assoc. split; [reflexivity|].
      now apply Forall_app.
    + exists m1. now split.
Qed.

(** The loop only adds to [solidity_files]. *)
Lemma scan_items_keeps (recur : string -> M (list file)) (contents : list item) :
  forall solidity_files log,
  exists found,
    fst (scan_items recur contents solidity_files log) = (solidity_files ++ found)%list.
Proof.
  induction contents as [|it rest IH]; intros acc log.
  - exists []. cbn. now rewrite app_nil_r.
  - cbn [scan_items]. destruct (visit_item recur it log) as [[found | e] log'].
    + destruct (IH (acc ++ found)%list log') as [more E].
      exists (found ++ more)%list. now rewrite E, app_assoc.
    + exists []. cbn. now rewrite app_nil_r.
Qed.

(** With a call to spare, [_find_solidity_files] returns a list: it never
    raises. *)
Lemma find_returns (d : nat) (owner repo path : string) (headers : dict)
    (log : list request) :
  exists files log',
    _find_solidity_files net (S d) owner repo path headers log = (Ok files, log').
Proof.
  cbn [_find_solidity_files]. unfold requests_get.
  destruct (net _) as [r | e]; [|eauto].
  destruct (negb (status_code r =? 200)); [eauto|].
  unfold response_json. destruct (json r) as [contents|]; cbn; [|eauto].
  destruct (scan_items _ _ _ _). eauto.
Qed.

(** Every request of [_find_solidity_files] carries [headers] without its
    [Accept] entry. *)
Lemma find_extends (depth : nat) (owner repo : string) (headers : dict) :
  forall path,
    extends_log (fun req => req_headers req = list_headers_of headers)
                (_find_solidity_files net depth owner repo path headers).
Proof.
  induction depth as [|d IH]; intros path log.
  - exists []. cbn. now rewrite app_nil_r.
  - cbn [_find_solidity_files]. unfold requests_get.
    set (req := {| req_url := _; req_headers := _ |}).
    assert (Forall (fun r => req_headers r = list_headers_of headers) [req]) as F0
      by (constructor; [reflexivity | constructor]).
    destruct (net req) as [r | e]; [|exists [req]; now split].
    destruct (negb (status_code r =? 200)); [exists [req]; now split|].
    unfold response_json. destruct (json r) as [contents|]; cbn;
      [|exists [req]; now split].
    destruct (scan_items_extends _ _ IH contents [] (log ++ [req])%list) as [m [E F]].
    destruct (scan_items _ _ _ _) as [fs log3]. cbn in E |- *. subst log3.
    exists ([req] ++ m)%list. rewrite app_assoc. split; [reflexivity|].
    now apply Forall_app.
Qed.

(** With a call to spare, the first request lists [path]. *)
Lemma find_first_request (d : nat) (owner repo path : string) (headers : dict)
    (log : list request) :
  exists more,
    snd (_find_solidity_files net (S d) owner repo path headers log) =
    (log ++ listing_request owner repo path headers :: more)%list.
Proof.
  cbn [_find_solidity_files]. unfold requests_get.
  fold (listing_request owner repo path headers).
  set (req := listing_request _ _ _ _).
  destruct (net req) as [r | e]; [|now exists []].
  destruct (negb (status_code r =? 200)); [now exists []|].
  unfold response_json. destruct (json r) as [contents|]; cbn; [|now exists []].
  destruct (scan_items_extends _ _ (find_extends d owner repo headers)
              contents [] (log ++ [req])%list) as [m [E _]].
  destruct (scan_items _ _ _ _) as [fs log3]. cbn in E |- *. subst log3.
  exists m. now rewrite <- app_assoc.
Qed.

(** A listing that fails yields no file, raises nothing, and costs its one
    request. *)
Lemma find_listing_fails (d : nat) (owner repo path : string) (headers : dict)
    (log : list request) :
  (listing_fails net) (listing_request owner repo path headers) ->
  _find_solidity_files net (S d) owner repo path headers log =
  (Ok [], (log ++ [listing_request owner repo path headers])%list).
Proof.
  unfold listing_fails. intros H. cbn [_find_solidity_files].
  unfold requests_get. fold (listing_request owner repo path headers).
  destruct (net _) as [r | e]; [|reflexivity].
  apply Z.eqb_neq in H. now rewrite H.
Qed.

End Discovery.

(** ** URL validation *)

Lemma strip_prefix_iff (p s r : string) :
  strip_prefix p s = Some r <-> s = p ++ r.
Proof.
  revert s. induction p as [|b p IH]; intros s; cbn.
  - split; [now intros [= ->] | now intros ->].
  - destruct s as [|a s]; [split; discriminate|].
    destruct (Ascii.eqb_spec a b) as [-> | N].
    + rewrite IH. split; [now intros -> | now intros [= ->]].
    + split; [discriminate | intros [= E _]; contradiction].
Qed.

Lemma span_not_slash_iff (s run rest : string) :
  span_not_slash s = (run, rest) <->
  s = run ++ rest /\ no_slash run /\ (rest = "" \/ exists r, rest = "/" ++ r).
Proof.
  revert run rest. induction s as [|a s IH]; intros run rest; cbn [span_not_slash].
  - split.
    + intros [= <- <-]. repeat split. now left.
    + intros [E _]. destruct run; [|discriminate]. cbn in E. now subst.
  - destruct (Ascii.eqb_spec a "/") as [-> | N].
    + split.
      * intros [= <- <-]. repeat split. right. now exists s.
      * intros [E [Hn Hr]]. destruct run as [|b run].
        -- cbn in E. now subst.
        -- injection E as <- _. apply no_slash_String in Hn. now destruct Hn.
    + destruct (span_not_slash s) as [run' rest'] eqn:Es. split.
      * intros [= <- <-]. destruct (proj1 (IH run' rest') eq_refl) as [-> [Hn Hr]].
        repeat split; [|exact Hr]. now apply no_slash_String.
      * intros [E [Hn Hr]]. destruct run as [|b run].
        -- cbn in E. subst rest. destruct Hr as [? | [r [= ? _]]];
             [discriminate | congruence].
        -- injection E as <- E. apply no_slash_String in Hn as [_ Hn].
           assert ((run', rest') = (run, rest)) as E' by (apply IH; auto).
           congruence.
Qed.

(** The matcher accepts exactly the strings of that shape. *)
Lemma match_github_url_iff (s owner repo : string) :
  match_github_url s = Some (owner, repo) <-> github_shape s owner repo.
Proof.
  unfold match_github_url, github_shape. split.
  - destruct (strip_prefix _ s) as [r|] eqn:Ep; [|discriminate].
    apply strip_prefix_iff in Ep.
    destruct (span_not_slash r) as [o r1] eqn:E1.
    destruct o as [|a o]; [discriminate|]. destruct r1 as [|c r1]; [discriminate|].
    destruct (span_not_slash r1) as [p r2] eqn:E2.
    destruct p as [|b p]; [discriminate|]. intros [= <- <-].
    apply span_not_slash_iff in E1 as [-> [Hn1 Hr1]].
    apply span_not_slash_iff in E2 as [-> [Hn2 Hr2]].
    destruct Hr1 as [? | [r [= -> _]]]; [discriminate|].
    exists r2. rewrite Ep. repeat split; auto; discriminate.
  - intros [rest [-> [Ho [Hr [Hno [Hnr Hrest]]]]]].
    rewrite (proj2 (strip_prefix_iff _ _ (owner ++ "/" ++ repo ++ rest)) eq_refl).
    rewrite (proj2 (span_not_slash_iff _ owner ("/" ++ repo ++ rest)))
      by (repeat split; [exact Hno | right; now exists (repo ++ rest)]).
    destruct owner as [|a owner]; [congruence|]. cbn [append].
    rewrite (proj2 (span_not_slash_iff _ repo rest)) by (repeat split; auto).
    destruct repo; [congruence | reflexivity].
Qed.

(** ** Kinds of block *)

Section Blocks.

Variable net : request -> outcome.
Variable headers : dict.



Lemma main_block_not_notice (f : file) : main_block net headers f <> limit_notice.
Proof.
  unfold main_block. destruct (net _) as [r | e]; [|discriminate].
  destruct (status_code r =? 200); discriminate.
Qed.

Lemma supporting_block_not_notice (f : file) :
  supporting_block net headers f <> limit_notice.
Proof.
  unfold supporting_block. destruct (net _) as [r | e]; [|discriminate].
  destruct (status_code r =? 200); discriminate.
Qed.



Lemma main_block_content (f : file) :
  is_content_block (main_block net headers f) =
  match fetched net headers f with Some _ => true | None => false end.
Proof.
  unfold main_block, fetched. destruct (net _) as [r | e]; [|reflexivity].
  destruct (status_code r =? 200); reflexivity.
Qed.

Lemma supporting_block_content (f : file) :
  is_content_block (supporting_block net headers f) =
  match fetched net headers f with Some _ => true | None => false end.
Proof.
  unfold supporting_block, fetched. destruct (net _) as [r | e]; [|reflexivity].
  destruct (status_code r =? 200); reflexivity.
Qed.

Lemma main_block_is_main (f : file) :
  is_main_contract_block (main_block net headers f) =
  is_content_block (main_block net headers f).
Proof.
  unfold main_block. destruct (net _) as [r | e]; [|reflexivity].
  destruct (status_code r =? 200); reflexivity.
Qed.

(** The counter grows by the length of the content blocks, and by these
    only. *)
Lemma counted_sum_content (block : file -> string) (files : list file) :
  (forall f, is_content_block (block f) =
             match fetched net headers f with Some _ => true | None => false end) ->
  counted_sum net headers block files =
  Py.len (Py.join (filter is_content_block (map block files))).
Proof.
  intros H. induction files as [|f files IH]; [reflexivity|].
  cbn [counted_sum fold_right map filter]. fold (counted_sum net headers block files).
  rewrite IH, H. unfold counted.
  destruct (fetched net headers f); cbn [Py.join].
  - now rewrite PyFacts.len_append.
  - lia.
Qed.

(** With the counter over the limit, no file is reached. *)
Lemma reached_over (total : Z) (other_files : list file) :
  100000 < total ->
  reached net headers total other_files = [] /\
  skipped net headers total other_files = other_files.
Proof.
  intros H. apply Z.ltb_lt in H. destruct other_files; cbn; [auto|].
  now rewrite H.
Qed.

Lemma notices_app (l l' : list string) : notices (l ++ l') = (notices l + notices l')%nat.
Proof. apply count_occ_app. Qed.

Lemma notices_blocks (block : file -> string) (files : list file) :
  (forall f, block f <> limit_notice) -> notices (map block files) = O.
Proof.
  intros H. unfold notices. apply count_occ_not_In. intros Hin.
  apply in_map_iff in Hin as [f [E _]]. now apply (H f).
Qed.


Lemma notice_for_left (left : list file) :
  left <> [] -> notice_for left = [limit_notice].
Proof. destruct left; [congruence | reflexivity]. Qed.

Lemma notices_notice_for (left : list file) :
  notices (notice_for left) = match left with [] => O | _ :: _ => 1%nat end.
Proof.
  destruct left; [reflexivity|]. unfold notices, notice_for. cbn [count_occ].
  now destruct (string_dec limit_notice limit_notice).
Qed.

End Blocks.

(** ** Runs *)

Section Runs.

Variable getenv : string -> option string.
Variable net : request -> outcome.

(** What [render] leaves: the summary, one block per main contract, one
    block per supporting file reached, and the notice if files were left;
    and the requests sent on the way. *)
Lemma render_eq (repo_url : string) (solidity_files : list file) (headers : dict)
    (log : list request) :
  let main_contracts := filter (fun f => is_main_contract (fst f)) solidity_files in
  let other_files := filter (fun f => negb (is_main_contract (fst f))) solidity_files in
  let summary :=
    summary_of repo_url (Py.llen solidity_files) (Py.llen main_contracts)
               (Py.llen other_files) in
  let t1 := counted_sum net headers (main_block net headers) main_contracts in
  let done := reached net headers t1 other_files in
  render net repo_url solidity_files headers log =
  ({| r_main_contracts := main_contracts;
      r_other_files := other_files;
      r_summary := summary;
      r_after_main :=
        {| results := summary :: map (main_block net headers) main_contracts;
           total_chars := t1 |};
      r_final :=
        {| results := summary :: map (main_block net headers) main_contracts
                      ++ map (supporting_block net headers) done
                      ++ notice_for (skipped net headers t1 other_files);
           total_chars :=
             t1 + counted_sum net headers (supporting_block net headers) done |} |},
   (log ++ map (raw_request headers) main_contracts
        ++ map (raw_request headers) done)%list).
Proof.
  cbv zeta. unfold render. rewrite classify_filter. cbn [app].
  rewrite main_loop_eq. cbn [results total_chars].
  pose proof (supporting_loop_eq net headers) as S. cbv zeta in S. rewrite S.
  cbn [results total_chars app]. rewrite Z.add_0_l, <- !app_assoc. reflexivity.
Qed.

Lemma summary_of_not_empty (repo_url : string) (n_files n_main n_other : Z) :
  summary_of repo_url n_files n_main n_other <> "".
Proof. discriminate. Qed.

Lemma summary_of_marker (repo_url : string) (n_files n_main n_other : Z) :
  Py.contains (summary_of repo_url n_files n_main n_other) "Supporting files:" = true.
Proof.
  apply PyFacts.contains_iff. unfold summary_of.
  exists ("=== REPOSITORY ANALYSIS SUMMARY ===" ++ "
" ++ "Repository: " ++ repo_url ++ "
" ++ "Total files found: " ++ Py.str n_files ++ "
" ++ "Main contracts: " ++ Py.str n_main ++ "
"), (" " ++ Py.str n_other ++ "

").
  rewrite !PyFacts.append_assoc. reflexivity.
Qed.

(** The patched summary reports the size it is given, and is longer than
    the summary. *)
Lemma final_summary_of_facts (summary : string) (n_other full_size : Z) :
  Py.contains summary "Supporting files:" = true ->
  reports_size (final_summary_of summary n_other full_size) full_size /\
  Py.len summary < Py.len (final_summary_of summary n_other full_size).
Proof.
  intros H. unfold final_summary_of.
  set (new := "Supporting files: " ++ Py.str n_other ++ "
" ++ "Total output size: " ++ Py.str full_size ++ " characters
").
  destruct (PyFacts.replace_first "Supporting files:" new summary) as [l [r [E ->]]];
    [discriminate | exact H |].
  assert (Py.len "Supporting files:" < Py.len new) as Hlen.
  { unfold new. rewrite !PyFacts.len_append.
    pose proof (PyFacts.len_nonneg (Py.str n_other)).
    pose proof (PyFacts.len_nonneg (Py.str full_size)).
    change (Py.len "Supporting files:") with 17.
    change (Py.len "Supporting files: ") with 18.
    change (Py.len "Total output size: ") with 19.
    pose proof (PyFacts.len_nonneg "
"). pose proof (PyFacts.len_nonneg " characters
"). lia. }
  split.
  - unfold reports_size, occurs_in.
    exists (l ++ "Supporting files: " ++ Py.str n_other ++ "
"), ("
" ++ Py.replace r "Supporting files:" new).
    unfold new. rewrite !PyFacts.append_assoc. reflexivity.
  - rewrite E, !PyFacts.len_append.
    pose proof (PyFacts.len_replace_ge r "Supporting files:" new).
    assert (Py.len r <= Py.len (Py.replace r "Supporting files:" new))
      by (apply H0; [discriminate | lia]).
    lia.
Qed.

Lemma reports_size_append (s t : string) (n : Z) :
  reports_size s n -> reports_size (s ++ t) n.
Proof.
  intros [l [r ->]]. exists l, (r ++ t). now rewrite !PyFacts.append_assoc.
Qed.

(** The patch of line 199 replaces the summary at the head of the joined
    sections, and goes on through the rest. *)
Lemma finish_eq (r : rendering) (sections : list string) :
  results (r_final r) = r_summary r :: sections ->
  r_summary r <> "" ->
  let final_summary :=
    final_summary_of (r_summary r) (Py.llen (r_other_files r))
                     (Py.len (Py.join (results (r_final r)))) in
  finish r = final_summary ++ Py.replace (Py.join sections) (r_summary r) final_summary.
Proof.
  intros E Hne. cbv zeta. unfold finish. rewrite E at 1. cbn [Py.join].
  now rewrite PyFacts.replace_hit.
Qed.

(** A run on a URL that does not match. *)
Lemma run_invalid (depth : nat) (repo_url file_pattern : string) :
  match_github_url (Py.rstrip repo_url "/") = None ->
  _run getenv net depth repo_url file_pattern = (invalid_url_message, []).
Proof. intros H. unfold _run, run_body. now rewrite H. Qed.

(** A run that discovers no file. *)
Lemma run_no_files (depth : nat) (repo_url file_pattern owner repo : string)
    (log : list request) :
  match_github_url (Py.rstrip repo_url "/") = Some (owner, repo) ->
  _find_solidity_files net depth owner repo "" (initial_headers getenv) [] = (Ok [], log) ->
  _run getenv net depth repo_url file_pattern = (no_files_message, log).
Proof.
  intros Hm Hf. unfold _run, run_body. rewrite Hm. unfold bind. now rewrite Hf.
Qed.

(** A run that discovers files renders them and patches the summary. *)
Lemma run_files (depth : nat) (repo_url file_pattern owner repo : string)
    (solidity_files : list file) (log : list request) :
  match_github_url (Py.rstrip repo_url "/") = Some (owner, repo) ->
  _find_solidity_files net depth owner repo "" (initial_headers getenv) [] =
    (Ok solidity_files, log) ->
  solidity_files <> [] ->
  _run getenv net depth repo_url file_pattern =
  (finish (fst (render net repo_url solidity_files (initial_headers getenv) log)),
   snd (render net repo_url solidity_files (initial_headers getenv) log)).
Proof.
  intros Hm Hf Hne. unfold _run, run_body. rewrite Hm. unfold bind. rewrite Hf.
  destruct solidity_files as [|f fs]; [congruence|].
  now destruct (render _ _ _ _ _).
Qed.

(** With a call to spare, the first thing a run on a matching URL does is
    list the root of the repository. *)
Lemma run_lists_root (d : nat) (repo_url file_pattern owner repo : string) :
  match_github_url (Py.rstrip repo_url "/") = Some (owner, repo) ->
  exists rest,
    snd (_run getenv net (S d) repo_url file_pattern) =
    listing_request owner repo "" (initial_headers getenv) :: rest.
Proof.
  intros Hm.
  destruct (find_returns net d owner repo "" (initial_headers getenv) [])
    as [files [log Hf]].
  destruct (find_first_request net d owner repo "" (initial_headers getenv) [])
    as [rest E].
  rewrite Hf in E. cbn in E. subst log.
  destruct files as [|f fs].
  - rewrite (run_no_files _ _ _ _ _ _ Hm Hf). cbn. eauto.
  - rewrite (run_files _ _ _ _ _ _ _ Hm Hf) by discriminate.
    rewrite render_eq. cbn [snd app]. eauto.
Qed.

End Runs.

(** ** Discovery, entry by entry *)

(** On an entry that it can read, with recursive calls that return, the
    iteration returns; on a [.sol] entry it returns that entry. *)
Lemma visit_item_readable (recur : string -> M (list file)) (it : item)
    (log : list request) :
  (forall p log0, exists files log1, recur p log0 = (Ok files, log1)) ->
  readable_entry it ->
  exists found log',
    visit_item recur it log = (Ok found, log') /\
    (forall p u, sol_entry it p u -> found = [(p, u)]).
Proof.
  intros Hrec [ty [Hty [Hfile Hdir]]].
  unfold visit_item, bind, getitem, ret, raise, sol_entry. rewrite Hty. cbn.
  destruct (String.eqb ty "file") eqn:Efile; cbn.
  - apply String.eqb_eq in Efile. subst ty.
    destruct (Hfile eq_refl) as [name [Hn Hsol]]. rewrite Hn. cbn.
    destruct (Py.endswith name ".sol") eqn:Es; cbn.
    + destruct (Hsol eq_refl) as [Hp Hu].
      destruct (dict_lookup it "path") as [p|]; [|congruence].
      destruct (dict_lookup it "download_url") as [u|]; [|congruence]. cbn.
      exists [(p, u)], log. split; [reflexivity|].
      intros p' u' [_ [_ [[= ->] [= ->]]]]. reflexivity.
    + exists [], log. split; [reflexivity|].
      intros p u [_ [[name' [[= <-] Hs]] _]]. congruence.
  - destruct (String.eqb ty "dir") eqn:Edir; cbn.
    + apply String.eqb_eq in Edir. subst ty.
      destruct (dict_lookup it "path") as [p|]; [|now destruct (Hdir eq_refl)]. cbn.
      destruct (Hrec p log) as [files [log1 Hr]]. exists files, log1.
      split; [exact Hr|]. intros p' u' [E _]. discriminate E.
    + exists [], log. split; [reflexivity|]. intros p u [E _].
      injection E as ->. rewrite String.eqb_refl in Efile. discriminate Efile.
Qed.

(** A scan of entries that it can read, with recursive calls that return,
    misses no [.sol] entry. *)
Lemma scan_items_complete (recur : string -> M (list file)) (contents : list item) :
  (forall p log0, exists files log1, recur p log0 = (Ok files, log1)) ->
  Forall readable_entry contents ->
  forall solidity_files log it p u,
    In it contents -> sol_entry it p u ->
    In (p, u) (fst (scan_items recur contents solidity_files log)).
Proof.
  intros Hrec. induction contents as [|it0 rest IH]; intros Hall acc log it p u Hin Hs.
  - contradiction.
  - cbn [scan_items].
    destruct (visit_item_readable recur it0 log Hrec (Forall_inv Hall))
      as [found [log' [-> Hfound]]].
    destruct Hin as [-> | Hin].
    + rewrite (Hfound _ _ Hs).
      destruct (scan_items_keeps recur rest (acc ++ [(p, u)])%list log') as [more ->].
      apply in_or_app. left. apply in_or_app. right. now left.
    + apply (IH (Forall_inv_tail Hall) _ _ it); assumption.
Qed.

(** The value of an iteration does not depend on the log, when that of the
    recursive calls does not. *)
Lemma visit_item_value (recur : string -> M (list file)) (it : item)
    (log log' : list request) :
  (forall p l l', fst (recur p l) = fst (recur p l')) ->
  fst (visit_item recur it log) = fst (visit_item recur it log').
Proof.
  intros Hrec. unfold visit_item, bind, getitem, ret, raise.
  destruct (dict_lookup it "type") as [ty|]; cbn; [|reflexivity].
  destruct (String.eqb ty "file") eqn:Efile; cbn.
  - apply String.eqb_eq in Efile. subst ty.
    destruct (dict_lookup it "name") as [name|]; cbn; [|reflexivity].
    destruct (Py.endswith name ".sol"); cbn.
    + destruct (dict_lookup it "path") as [p|]; cbn; [|reflexivity].
      destruct (dict_lookup it "download_url") as [u|]; reflexivity.
    + reflexivity.
  - destruct (String.eqb ty "dir"); cbn; [|reflexivity].
    destruct (dict_lookup it "path") as [p|]; cbn; [|reflexivity].
    apply Hrec.
Qed.

(** Nor do the files of a scan. *)
Lemma scan_items_value (recur : string -> M (list file)) (contents : list item) :
  (forall p l l', fst (recur p l) = fst (recur p l')) ->
  forall solidity_files log log',
    fst (scan_items recur contents solidity_files log) =
    fst (scan_items recur contents solidity_files log').
Proof.
  intros Hrec. induction contents as [|it rest IH]; intros acc log log'.
  - reflexivity.
  - cbn [scan_items]. pose proof (visit_item_value recur it log log' Hrec) as E.
    destruct (visit_item recur it log) as [[found | e] l1];
      destruct (visit_item recur it log') as [[found' | e'] l2]; cbn in E;
      try discriminate E.
    + injection E as <-. apply IH.
    + reflexivity.
Qed.

(** The files that [_find_solidity_files] returns do not depend on the
    requests made before. *)
Lemma find_value (net : request -> outcome) (owner repo : string) (headers : dict)
    (depth : nat) :
  forall path log log',
    fst (_find_solidity_files net depth owner repo path headers log) =
    fst (_find_solidity_files net depth owner repo path headers log').
Proof.
  induction depth as [|d IH]; intros path log log'; [reflexivity|].
  cbn [_find_solidity_files]. unfold requests_get.
  destruct (net _) as [r | e]; [|reflexivity].
  destruct (negb (status_code r =? 200)); [reflexivity|].
  unfold response_json. destruct (json r) as [contents|]; cbn; [|reflexivity].
  pose proof (scan_items_value
                (fun p => _find_solidity_files net d owner repo p headers)
                contents IH []
                (log ++ [{| req_url := api_url_of owner repo path;
                            req_headers := list_headers_of headers |}])%list
                (log' ++ [{| req_url := api_url_of owner repo path;
                             req_headers := list_headers_of headers |}])%list) as E.
  destruct (scan_items _ contents [] (log ++ _)%list) as [fs l3].
  destruct (scan_items _ contents [] (log' ++ _)%list) as [fs' l3'].
  cbn in E |- *. now rewrite E.
Qed.

(** An entry whose iteration adds nothing can be left out of the listing:
    the files of the scan are the same. *)
Lemma scan_items_skip (recur : string -> M (list file)) (it : item)
    (before after : list item) :
  (forall p l l', fst (recur p l) = fst (recur p l')) ->
  (forall log, fst (visit_item recur it log) = Ok []) ->
  forall solidity_files log,
    fst (scan_items recur (before ++ it :: after) solidity_files log) =
    fst (scan_items recur (before ++ after) solidity_files log).
Proof.
  intros Hrec Hit. induction before as [|b before IH]; intros acc log.
  - cbn [app scan_items]. specialize (Hit log).
    destruct (visit_item recur it log) as [[found | e] log']; cbn in Hit;
      [|discriminate Hit].
    injection Hit as ->. rewrite app_nil_r. apply scan_items_value. exact Hrec.
  - cbn [app scan_items]. destruct (visit_item recur b log) as [[found | e] log'].
    + apply IH.
    + reflexivity.
Qed.

(** A scan of entries that it can read, with recursive calls that return,
    holds the files of each directory entry. *)
Lemma scan_items_complete_dir (recur : string -> M (list file)) (contents : list item) :
  (forall p log0, exists files log1, recur p log0 = (Ok files, log1)) ->
  (forall p l l', fst (recur p l) = fst (recur p l')) ->
  Forall readable_entry contents ->
  forall solidity_files log it q files f,
    In it contents ->
    dict_lookup it "type" = Some "dir" -> dict_lookup it "path" = Some q ->
    fst (recur q []) = Ok files -> In f files ->
    In f (fst (scan_items recur contents solidity_files log)).
Proof.
  intros Hrec Hval.
  induction contents as [|it0 rest IH]; intros Hall acc log it q files f Hin Hty Hq Hfs Hf.
  - contradiction.
  - cbn [scan_items].
    destruct (visit_item_readable recur it0 log Hrec (Forall_inv Hall))
      as [found [log' [Ev _]]].
    rewrite Ev. destruct Hin as [-> | Hin].
    + rewrite (visit_item_dir recur it q log Hty Hq) in Ev.
      assert (found = files) as ->.
      { pose proof (Hval q log []) as E. rewrite Ev, Hfs in E. cbn in E.
        now injection E. }
      destruct (scan_items_keeps recur rest (acc ++ files)%list log') as [more ->].
      apply in_or_app. left. apply in_or_app. now right.
    + apply (IH (Forall_inv_tail Hall) _ _ it q files); assumption.
Qed.

(** The call on a directory whose listing is answered with status 200 and
    decodes returns the files of the scan of its entries. *)
Lemma find_listing_ok (net : request -> outcome) (d : nat)
    (owner repo path : string) (headers : dict) (log : list request)
    (r : response) (contents : list item) :
  net (listing_request owner repo path headers) = Returns r ->
  status_code r = 200 ->
  json r = Some contents ->
  _find_solidity_files net (S d) owner repo path headers log =
  (Ok (fst (scan_items (fun p => _find_solidity_files net d owner repo p headers)
                       contents [] (log ++ [listing_request owner repo path headers])%list)),
   snd (scan_items (fun p => _find_solidity_files net d owner repo p headers)
                   contents [] (log ++ [listing_request owner repo path headers])%list)).
Proof.
  intros Hn Hst Hj. cbn [_find_solidity_files]. unfold requests_get.
  fold (listing_request owner repo path headers). rewrite Hn.
  apply Z.eqb_eq in Hst. rewrite Hst. cbn [negb]. unfold response_json.
  rewrite Hj. cbn. now destruct (scan_items _ contents [] _).
Qed.

(** * The claims of the specification *)

(** What the classification loop does.  Every discovered file goes to
    [main_contracts] exactly when its path contains the text [src/] and ends
    in neither [.t.sol] nor [.s.sol], and to [other_files] otherwise; both
    lists keep the order of discovery, and they are the lists that the run
    renders.  As the two suffixes hold no slash, a path ends in one of them
    exactly when the name of the file does.  A path ending in [src/foo.sol]
    is main; one ending in [src/foo.t.sol] or [src/foo.s.sol] is
    supporting. *)
Theorem classification_rule (solidity_files : list file) :
  let main_contracts := fst (classify solidity_files [] []) in
  let other_files := snd (classify solidity_files [] []) in
  (forall f, In f main_contracts <-> In f solidity_files /\ main_path (fst f)) /\
  (forall f, In f other_files <-> In f solidity_files /\ ~ main_path (fst f)) /\
  main_contracts = filter (fun f => is_main_contract (fst f)) solidity_files /\
  other_files = filter (fun f => negb (is_main_contract (fst f))) solidity_files /\
  (forall net repo_url headers log,
      let r := fst (render net repo_url solidity_files headers log) in
      r_main_contracts r = main_contracts /\ r_other_files r = other_files) /\
  (forall file_path suffix,
      no_slash suffix ->
      (ends_in suffix file_path <-> ends_in suffix (basename file_path))) /\
  (forall dir : string,
      is_main_contract (dir ++ "src/foo.sol") = true /\
      is_main_contract (dir ++ "src/foo.t.sol") = false /\
      is_main_contract (dir ++ "src/foo.s.sol") = false).
Proof.
  cbv zeta. rewrite classify_filter. cbn [fst snd app].
  split; [|split; [|split; [reflexivity|split; [reflexivity|split; [|split]]]]].
  - intros f. rewrite filter_In, is_main_contract_iff. reflexivity.
  - intros f. rewrite filter_In, negb_true_iff, <- not_true_iff_false.
    rewrite is_main_contract_iff. reflexivity.
  - intros net repo_url headers log. cbv zeta.
    pose proof (render_eq net repo_url solidity_files headers log) as E.
    cbv zeta in E. rewrite E. split; reflexivity.
  - intros file_path suffix. apply ends_in_basename.
  - intros dir. split; [|split].
    + apply is_main_contract_iff. split; [now exists dir, "foo.sol"|].
      split; intros H;
        change (dir ++ "src/foo.sol") with (dir ++ "src/f" ++ "oo.sol") in H;
        rewrite <- PyFacts.append_assoc in H;
        (apply ends_in_same_length in H; [discriminate | reflexivity]).
    + apply not_true_iff_false. intros M. apply is_main_contract_iff in M.
      destruct M as [_ [M _]]. apply M. exists (dir ++ "src/foo").
      now rewrite PyFacts.append_assoc.
    + apply not_true_iff_false. intros M. apply is_main_contract_iff in M.
      destruct M as [_ [_ M]]. apply M. exists (dir ++ "src/foo").
      now rewrite PyFacts.append_assoc.
Qed.

(** C1. The code tests for the text [src/] anywhere in the path, not for a
    directory named [src]: [mysrc/Baz.sol], which lies in no [src]
    directory, is classified main.  Every file that the rule of the
    specification calls main is classified main; the two part only on paths
    where [src/] is the end of a longer directory name. *)
Theorem src_substring_classified_main :
  is_main_contract "mysrc/Baz.sol" = true /\
  classify [RevisedExamples.mysrc_file] [] [] = ([RevisedExamples.mysrc_file], []) /\
  ~ in_src_directory "mysrc/Baz.sol" /\
  ~ main_by_directory "mysrc/Baz.sol" /\
  (forall file_path, is_main_contract file_path = true <-> main_path file_path) /\
  (forall file_path, main_by_directory file_path -> is_main_contract file_path = true) /\
  (forall file_path,
      is_main_contract file_path = true -> ~ main_by_directory file_path ->
      occurs_in "src/" file_path /\ ~ in_src_directory file_path).
Proof.
  assert (~ in_src_directory "mysrc/Baz.sol") as Hno.
  { intros [[rest E] | [dir [rest E]]]; [discriminate E|].
    assert (Py.contains "mysrc/Baz.sol" "/src/" = true) as C
      by (apply PyFacts.contains_iff; now exists dir, rest).
    discriminate C. }
  assert (forall file_path suffix,
             no_slash suffix ->
             ~ ends_in suffix (basename file_path) -> ~ ends_in suffix file_path) as Hname
    by (intros p suffix Hs H E; apply H; apply (ends_in_basename suffix p Hs); exact E).
  assert (forall file_path suffix,
             no_slash suffix ->
             ~ ends_in suffix file_path -> ~ ends_in suffix (basename file_path)) as Hpath
    by (intros p suffix Hs H E; apply H; apply (ends_in_basename suffix p Hs); exact E).
  split; [reflexivity|]. split; [reflexivity|]. split; [exact Hno|].
  split; [intros [H _]; now apply Hno|].
  split; [apply is_main_contract_iff|]. split.
  - intros p [Hdir [Ht Hs]]. apply is_main_contract_iff. split; [|split].
    + destruct Hdir as [[rest ->] | [dir [rest ->]]].
      * now exists "", rest.
      * exists (dir ++ "/"), rest. now rewrite PyFacts.append_assoc.
    + now apply Hname.
    + now apply Hname.
  - intros p Hmain Hnot. apply is_main_contract_iff in Hmain as [Hocc [Ht Hs]].
    split; [exact Hocc|]. intros Hdir. apply Hnot.
    split; [exact Hdir|]. split; now apply Hpath.
Qed.

(** C5, as the specification states it, fails: the URL of a tree is not of
    the shape [https://github.com/<owner>/<repo>], with or without slashes
    at its end, and the run does not refuse it: it sends its requests and
    returns a document. *)
Lemma url_validation_counterexample :
  let url := "https://github.com/o/r/tree/main" in
  let run := _run Examples.no_token Examples.token_repo 8 url "*.sol" in
  ~ repository_url url /\
  is_summary_block (fst run) = true /\
  fst run <> invalid_url_message /\
  List.length (snd run) = 5%nat.
Proof.
  cbv zeta. split; [|split; [|split]].
  - intros [owner [repo [n [Ho [Hr [Hno [Hnr E]]]]]]].
    assert (github_shape "https://github.com/o/r/tree/main" owner repo) as G.
    { exists (Py.repeat_char "/" n). repeat split; auto.
      destruct n as [|n]; [now left | right; now exists (Py.repeat_char "/" n)]. }
    apply match_github_url_iff in G. vm_compute in G. injection G as <- <-.
    cbn [append] in E. injection E as E.
    destruct n as [|[|n]]; discriminate E.
  - vm_compute. reflexivity.
  - vm_compute. discriminate.
  - vm_compute. reflexivity.
Qed.

(** C5, amended.  A URL that, once the slashes at its end are dropped, does
    not start with [https://github.com/<owner>/<repo>] followed by a slash
    or by nothing gets exactly the formatted error string, as a returned
    value, and no request is sent.  No other check rejects an input: on a
    URL that starts so, whatever comes after the repository, the run goes on
    to list the root of the repository. *)
Theorem url_validation (getenv : string -> option string) (net : request -> outcome)
    (depth : nat) (repo_url file_pattern : string) :
  (match_github_url (Py.rstrip repo_url "/") = None ->
   _run getenv net depth repo_url file_pattern = (invalid_url_message, [])) /\
  ((forall owner repo, ~ github_shape (Py.rstrip repo_url "/") owner repo) ->
   _run getenv net depth repo_url file_pattern = (invalid_url_message, [])) /\
  (forall owner repo,
      github_shape (Py.rstrip repo_url "/") owner repo ->
      exists rest,
        snd (_run getenv net (S depth) repo_url file_pattern) =
        listing_request owner repo "" (initial_headers getenv) :: rest).
Proof.
  split; [|split].
  - apply run_invalid.
  - intros H. apply run_invalid.
    destruct (match_github_url (Py.rstrip repo_url "/")) as [[owner repo]|] eqn:E;
      [|reflexivity].
    apply match_github_url_iff in E. now apply H in E.
  - intros owner repo H. apply match_github_url_iff in H.
    now apply run_lists_root.
Qed.

Lemma url_validation_witness :
  match_github_url (Py.rstrip "http://github.com/o/r/" "/") = None /\
  _run Examples.no_token Examples.token_repo 8 "http://github.com/o/r/" "*.sol" =
  (invalid_url_message, []).
Proof.
  split; [reflexivity|].
  apply (proj1 (url_validation Examples.no_token Examples.token_repo 8
                  "http://github.com/o/r/" "*.sol")).
  reflexivity.
Defined.




(** C2, as the specification states it, fails: here the counter passes
    100,000 while the supporting files are rendered, with the last of them,
    and no notice is appended. *)
Lemma size_limit_counterexample :
  let r := fst (render Examples.full_repo Examples.repo_url Examples.full_files
                       (initial_headers Examples.no_token) []) in
  total_chars (r_after_main r) <= 100000 /\
  100000 < total_chars (r_final r) /\
  notices (results (r_final r)) = O.
Proof. vm_compute. repeat split; discriminate. Qed.

(** C2, amended.  The loop over the supporting files reaches a file only
    with the counter at 100,000 or less; when it comes to a file with the
    counter over 100,000, that file and all that follow are left: they are
    neither fetched nor rendered, and the notice is appended, once.  The
    notice is appended in that case only: when no file is left there is none.
    Every main contract has its block, whatever the size. *)
Theorem size_limit (net : request -> outcome) (headers : dict)
    (repo_url : string) (solidity_files : list file) (log : list request) :
  let r := fst (render net repo_url solidity_files headers log) in
  let t1 := total_chars (r_after_main r) in
  let done := reached net headers t1 (r_other_files r) in
  let left := skipped net headers t1 (r_other_files r) in
  r_other_files r = (done ++ left)%list /\
  results (r_after_main r) =
    r_summary r :: map (main_block net headers) (r_main_contracts r) /\
  results (r_final r) =
    (results (r_after_main r) ++ map (supporting_block net headers) done
       ++ notice_for left)%list /\
  snd (render net repo_url solidity_files headers log) =
    (log ++ map (raw_request headers) (r_main_contracts r)
         ++ map (raw_request headers) done)%list /\
  (forall before f after,
      done = (before ++ f :: after)%list ->
      t1 + counted_sum net headers (supporting_block net headers) before <= 100000) /\
  (left <> [] -> 100000 < total_chars (r_final r)) /\
  notices (results (r_final r)) = match left with [] => O | _ :: _ => 1%nat end.
Proof.
  cbv zeta. pose proof (render_eq net repo_url solidity_files headers log) as E.
  cbv zeta in E. rewrite E.
  cbn [fst snd r_main_contracts r_other_files r_final r_after_main r_summary
       results total_chars].
  split; [apply reached_skipped|]. split; [reflexivity|].
  split; [reflexivity|]. split; [reflexivity|].
  split; [intros before f after; apply reached_within|].
  split; [apply skipped_over|].
  change (?x :: ?l ++ ?l' ++ ?l'')%list with ([x] ++ l ++ l' ++ l'')%list.
  rewrite !notices_app, notices_notice_for.
  rewrite (notices_blocks _ _ (main_block_not_notice net headers)).
  rewrite (notices_blocks _ _ (supporting_block_not_notice net headers)).
  unfold notices at 1. cbn [count_occ].
  destruct (string_dec _ limit_notice) as [N | _]; [discriminate N | reflexivity].
Qed.

Lemma size_limit_witness :
  let r := fst (render Examples.huge_tested_repo Examples.repo_url
                       Examples.huge_tested_files
                       (initial_headers Examples.no_token) []) in
  skipped Examples.huge_tested_repo (initial_headers Examples.no_token)
          (total_chars (r_after_main r)) (r_other_files r) <> [] /\
  100000 < total_chars (r_final r).
Proof.
  cbv zeta.
  assert (skipped Examples.huge_tested_repo (initial_headers Examples.no_token)
            (total_chars (r_after_main
               (fst (render Examples.huge_tested_repo Examples.repo_url
                       Examples.huge_tested_files
                       (initial_headers Examples.no_token) []))))
            (r_other_files
               (fst (render Examples.huge_tested_repo Examples.repo_url
                       Examples.huge_tested_files
                       (initial_headers Examples.no_token) []))) <> [])
    as H by (vm_compute; discriminate).
  split; [exact H|].
  destruct (size_limit Examples.huge_tested_repo (initial_headers Examples.no_token)
              Examples.repo_url Examples.huge_tested_files [])
    as [_ [_ [_ [_ [_ [Hover _]]]]]].
  exact (Hover H).
Defined.




(** C10, as the specification states it, fails: here the [MAIN CONTRACT]
    sections alone are over 100,000 characters, and no notice is emitted,
    as there is no supporting file. *)
Lemma counter_limit_counterexample :
  let headers := initial_headers Examples.no_token in
  let r := fst (render Examples.huge_repo Examples.repo_url Examples.huge_files
                       headers []) in
  fst (_find_solidity_files Examples.huge_repo 8 "o" "r" "" headers []) =
    Ok Examples.huge_files /\
  100000 < Py.len (Py.join (filter is_main_contract_block (results (r_after_main r)))) /\
  r_other_files r = [] /\
  notices (results (r_final r)) = O.
Proof.
  cbv zeta. split; [vm_compute; reflexivity|].
  split; [vm_compute; reflexivity|]. split; vm_compute; reflexivity.
Qed.

(** C10, amended.  The counter is the total length of the [MAIN CONTRACT]
    and [SUPPORTING FILE] blocks appended so far: the summary and the
    [ERROR] blocks add nothing to it.  So when the [MAIN CONTRACT] blocks
    alone are over 100,000 characters and there is a supporting file, no
    supporting file is fetched or rendered, and the notice follows the last
    block of the main contracts. *)
Theorem counter_limit (net : request -> outcome) (headers : dict)
    (repo_url : string) (solidity_files : list file) (log : list request) :
  let r := fst (render net repo_url solidity_files headers log) in
  total_chars (r_after_main r) =
    Py.len (Py.join (filter is_main_contract_block (results (r_after_main r)))) /\
  total_chars (r_final r) =
    Py.len (Py.join (filter is_content_block (results (r_final r)))) /\
  (100000 < Py.len (Py.join (filter is_main_contract_block (results (r_after_main r)))) ->
   r_other_files r <> [] ->
   results (r_final r) = (results (r_after_main r) ++ [limit_notice])%list /\
   total_chars (r_final r) = total_chars (r_after_main r) /\
   snd (render net repo_url solidity_files headers log) =
     (log ++ map (raw_request headers) (r_main_contracts r))%list).
Proof.
  cbv zeta. pose proof (render_eq net repo_url solidity_files headers log) as E.
  cbv zeta in E. rewrite E.
  cbn [fst snd r_main_contracts r_other_files r_final r_after_main r_summary
       results total_chars].
  set (mains := filter (fun f => is_main_contract (fst f)) solidity_files).
  set (others := filter (fun f => negb (is_main_contract (fst f))) solidity_files).
  set (summary := summary_of _ _ _ _).
  assert (counted_sum net headers (main_block net headers) mains =
          Py.len (Py.join (filter is_main_contract_block
                     (summary :: map (main_block net headers) mains)))) as Hmain.
  { rewrite (counted_sum_content net headers _ mains (main_block_content net headers)).
    cbn [filter]. replace (is_main_contract_block summary) with false by reflexivity.
    f_equal. f_equal. apply filter_ext_in. intros s Hs.
    apply in_map_iff in Hs as [f [<- _]]. symmetry. apply main_block_is_main. }
  split; [exact Hmain|]. split.
  - change (summary :: ?l ++ ?l' ++ ?l'')%list with ([summary] ++ l ++ l' ++ l'')%list.
    rewrite !filter_app, !PyFacts.join_app, !PyFacts.len_append.
    rewrite <- (counted_sum_content net headers _ mains (main_block_content net headers)).
    rewrite <- (counted_sum_content net headers _ _ (supporting_block_content net headers)).
    replace (filter is_content_block [summary]) with (@nil string) by reflexivity.
    replace (filter is_content_block (notice_for _)) with (@nil string)
      by (now destruct (skipped _ _ _ _)).
    cbn [Py.join]. change (Py.len "") with 0. lia.
  - rewrite <- Hmain. intros Hover Hne.
    destruct (reached_over net headers _ others Hover) as [-> ->].
    cbn [map app counted_sum fold_right]. rewrite app_nil_r, Z.add_0_r.
    split; [|split; reflexivity].
    now rewrite (notice_for_left _ Hne).
Qed.

Lemma counter_limit_witness :
  let headers := initial_headers Examples.no_token in
  let r := fst (render Examples.huge_tested_repo Examples.repo_url
                       Examples.huge_tested_files headers []) in
  100000 < Py.len (Py.join (filter is_main_contract_block (results (r_after_main r)))) /\
  r_other_files r <> [] /\
  results (r_final r) = (results (r_after_main r) ++ [limit_notice])%list.
Proof.
  cbv zeta.
  destruct (counter_limit Examples.huge_tested_repo (initial_headers Examples.no_token)
              Examples.repo_url Examples.huge_tested_files []) as [_ [_ H]].
  assert (100000 < Py.len (Py.join (filter is_main_contract_block
            (results (r_after_main
               (fst (render Examples.huge_tested_repo Examples.repo_url
                       Examples.huge_tested_files
                       (initial_headers Examples.no_token) [])))))))
    as H1 by (vm_compute; reflexivity).
  assert (r_other_files
            (fst (render Examples.huge_tested_repo Examples.repo_url
                    Examples.huge_tested_files
                    (initial_headers Examples.no_token) [])) <> [])
    as H2 by (vm_compute; discriminate).
  split; [exact H1|]. split; [exact H2|]. exact (proj1 (H H1 H2)).
Defined.



(** C8. When the listing of a directory fails, with a transport error or a
    status other than 200, the call for that directory returns no file and
    raises nothing, and the loop of its parent goes on with the entries that
    follow.  The call for the parent returns exactly the files that it would
    return if the directory were not in its listing: where the other entries
    can be read, every [.sol] entry beside the directory and every file of
    every directory beside it is among the files returned.  No call of
    [_find_solidity_files] aborts the discovery, and a run whose root
    listing fails ends with the message that no file was found. *)
Theorem listing_failure_local (net : request -> outcome) (d : nat)
    (owner repo : string) (headers : dict) (it : item) (path : string) :
  let recur := fun p => _find_solidity_files net (S d) owner repo p headers in
  let req := listing_request owner repo path headers in
  dict_lookup it "type" = Some "dir" ->
  dict_lookup it "path" = Some path ->
  listing_fails net req ->
  (forall log,
      _find_solidity_files net (S d) owner repo path headers log =
      (Ok [], (log ++ [req])%list)) /\
  (forall rest solidity_files log,
      scan_items recur (it :: rest) solidity_files log =
      scan_items recur rest solidity_files (log ++ [req])%list) /\
  (forall parent r before after log,
      net (listing_request owner repo parent headers) = Returns r ->
      status_code r = 200 ->
      json r = Some (before ++ it :: after)%list ->
      exists files log',
        _find_solidity_files net (S (S d)) owner repo parent headers log =
          (Ok files, log') /\
        files = fst (scan_items recur (before ++ after) [] []) /\
        (Forall readable_entry (before ++ after) ->
         (forall sibling p u,
             In sibling (before ++ after) -> sol_entry sibling p u ->
             In (p, u) files) /\
         (forall sibling q found f,
             In sibling (before ++ after) ->
             dict_lookup sibling "type" = Some "dir" ->
             dict_lookup sibling "path" = Some q ->
             fst (recur q []) = Ok found -> In f found ->
             In f files))) /\
  (forall path' log',
      exists files log'',
        _find_solidity_files net (S d) owner repo path' headers log' =
        (Ok files, log'')) /\
  (forall getenv repo_url file_pattern,
      match_github_url (Py.rstrip repo_url "/") = Some (owner, repo) ->
      listing_fails net (listing_request owner repo "" (initial_headers getenv)) ->
      _run getenv net (S d) repo_url file_pattern =
      (no_files_message, [listing_request owner repo "" (initial_headers getenv)])).
Proof.
  cbv zeta. intros Hty Hpath Hfail.
  assert (forall log,
             _find_solidity_files net (S d) owner repo path headers log =
             (Ok [], (log ++ [listing_request owner repo path headers])%list)) as Hfind
    by (intros log; now apply find_listing_fails).
  assert (forall rest solidity_files log,
             scan_items (fun p => _find_solidity_files net (S d) owner repo p headers)
               (it :: rest) solidity_files log =
             scan_items (fun p => _find_solidity_files net (S d) owner repo p headers)
               rest solidity_files
               (log ++ [listing_request owner repo path headers])%list) as Hscan.
  { intros rest acc log. cbn [scan_items].
    rewrite (visit_item_dir _ _ _ _ Hty Hpath), Hfind. now rewrite app_nil_r. }
  split; [exact Hfind|]. split; [exact Hscan|]. split; [|split].
  - intros parent r before after log Hn Hst Hj.
    rewrite (find_listing_ok net (S d) owner repo parent headers log r _ Hn Hst Hj).
    set (recur := fun p => _find_solidity_files net (S d) owner repo p headers).
    set (log1 := (log ++ [listing_request owner repo parent headers])%list).
    assert (fst (scan_items recur (before ++ it :: after) [] log1) =
            fst (scan_items recur (before ++ after) [] [])) as E.
    { rewrite scan_items_skip.
      - apply scan_items_value. intros p l l'. apply find_value.
      - intros p l l'. apply find_value.
      - intros log0. unfold recur.
        now rewrite (visit_item_dir _ _ _ _ Hty Hpath), Hfind. }
    exists (fst (scan_items recur (before ++ it :: after) [] log1)),
           (snd (scan_items recur (before ++ it :: after) [] log1)).
    split; [reflexivity|]. split; [exact E|].
    intros Hall. rewrite E. split.
    + intros sibling p u Hin Hs.
      apply (scan_items_complete recur (before ++ after)
               (fun p0 log0 => find_returns net d owner repo p0 headers log0)
               Hall [] [] sibling p u Hin Hs).
    + intros sibling q found f Hin Hsty Hq Hfound Hf.
      apply (scan_items_complete_dir recur (before ++ after)
               (fun p0 log0 => find_returns net d owner repo p0 headers log0)
               (fun p0 l l' => find_value net owner repo headers (S d) p0 l l')
               Hall [] [] sibling q found f Hin Hsty Hq Hfound Hf).
  - intros path' log'. apply find_returns.
  - intros getenv repo_url file_pattern Hm Hroot.
    apply (run_no_files getenv net _ _ _ _ _ _ Hm).
    now rewrite (find_listing_fails net d owner repo "" _ [] Hroot).
Qed.

Lemma listing_failure_local_witness :
  let headers := initial_headers Examples.no_token in
  dict_lookup (Examples.dir "src") "type" = Some "dir" /\
  dict_lookup (Examples.dir "src") "path" = Some "src" /\
  listing_fails Examples.partial_repo (listing_request "o" "r" "src" headers) /\
  fst (_find_solidity_files Examples.partial_repo 8 "o" "r" "" headers []) =
  Ok [("test/Token.t.sol", Examples.raw "test/Token.t.sol")].
Proof.
  cbv zeta.
  assert (dict_lookup (Examples.dir "src") "type" = Some "dir") as H1 by reflexivity.
  assert (dict_lookup (Examples.dir "src") "path" = Some "src") as H2 by reflexivity.
  assert (listing_fails Examples.partial_repo
            (listing_request "o" "r" "src" (initial_headers Examples.no_token)))
    as H3 by (vm_compute; discriminate).
  split; [exact H1|]. split; [exact H2|]. split; [exact H3|].
  destruct (listing_failure_local Examples.partial_repo 6 "o" "r"
              (initial_headers Examples.no_token) (Examples.dir "src") "src"
              H1 H2 H3) as [_ [_ [Hparent _]]].
  destruct (Hparent "" {| status_code := 200; text := "";
                          json := Some [Examples.dir "src"; Examples.dir "test"] |}
                    [] [Examples.dir "test"] []
                    ltac:(vm_compute; reflexivity) eq_refl eq_refl)
    as [files [log' [Hf [Hfiles _]]]].
  rewrite Hf. cbn [fst]. rewrite Hfiles. vm_compute. reflexivity.
Defined.

(** C7, as the specification states it, fails: with a token in the
    environment the request for the raw content of a file carries the
    token; without one it carries an empty [Authorization] header. *)
Lemma token_scope_counterexample :
  let with_token :=
    snd (_run Examples.with_token Examples.token_repo 8 Examples.repo_url "*.sol") in
  let without :=
    snd (_run Examples.no_token Examples.token_repo 8 Examples.repo_url "*.sol") in
  map req_url with_token = map req_url without /\
  nth_error with_token 3 =
    Some {| req_url := Examples.raw "src/Token.sol";
            req_headers := [("Authorization", "token s3cr3t")] |} /\
  nth_error without 3 =
    Some {| req_url := Examples.raw "src/Token.sol";
            req_headers := [("Authorization", "")] |} /\
  map req_headers (skipn 3 with_token) <> map req_headers (skipn 3 without).
Proof.
  cbv zeta. split; [vm_compute; reflexivity|]. split; [vm_compute; reflexivity|].
  split; [vm_compute; reflexivity|]. vm_compute. discriminate.
Qed.

(** C7, amended.  A token that is present and not empty is attached, as
    [Authorization: token <value>], to the content-listing requests and to
    the raw-content requests alike.  Without a token the listing requests
    carry no header and the raw-content requests carry an [Authorization]
    header with an empty value.  The [Accept] header is on no request. *)
Theorem token_scope (getenv : string -> option string) (net : request -> outcome)
    (depth : nat) (repo_url file_pattern owner repo : string)
    (solidity_files : list file) :
  let headers := initial_headers getenv in
  let listing := snd (_find_solidity_files net depth owner repo "" headers []) in
  let r := fst (render net repo_url solidity_files headers listing) in
  let done := reached net headers (total_chars (r_after_main r)) (r_other_files r) in
  let raw := map (raw_request headers) (r_main_contracts r ++ done) in
  let authorization := dict_get headers "Authorization" "" in
  match_github_url (Py.rstrip repo_url "/") = Some (owner, repo) ->
  fst (_find_solidity_files net depth owner repo "" headers []) = Ok solidity_files ->
  solidity_files <> [] ->
  snd (_run getenv net depth repo_url file_pattern) = (listing ++ raw)%list /\
  Forall (fun req => req_headers req = list_headers_of headers) listing /\
  Forall (fun req => req_headers req = [("Authorization", authorization)]) raw /\
  match getenv "GITHUB_TOKEN" with
  | Some (String a t) =>
      list_headers_of headers = [("Authorization", "token " ++ String a t)] /\
      authorization = "token " ++ String a t
  | _ => list_headers_of headers = [] /\ authorization = ""
  end.
Proof.
  cbv zeta. intros Hm Hf Hne.
  pose proof (find_extends net depth owner repo (initial_headers getenv) "" []) as Hx.
  destruct Hx as [more [Hlog Hall]]. cbn [app] in Hlog.
  destruct (_find_solidity_files net depth owner repo "" (initial_headers getenv) [])
    as [res log0] eqn:Ef. cbn [fst snd] in *. subst res log0.
  rewrite (run_files getenv net _ _ _ _ _ _ _ Hm Ef Hne). cbn [snd].
  pose proof (render_eq net repo_url solidity_files (initial_headers getenv) more) as E.
  cbv zeta in E. rewrite E.
  cbn [fst snd r_main_contracts r_other_files r_after_main total_chars].
  split; [now rewrite map_app|]. split; [exact Hall|]. split.
  - apply Forall_forall. intros req Hin. apply in_map_iff in Hin as [f [<- _]].
    reflexivity.
  - unfold initial_headers. destruct (getenv "GITHUB_TOKEN") as [[|a t]|]; auto.
Qed.

Lemma token_scope_witness :
  match_github_url (Py.rstrip Examples.repo_url "/") = Some ("o", "r") /\
  fst (_find_solidity_files Examples.token_repo 8 "o" "r" ""
         (initial_headers Examples.with_token) []) = Ok Examples.token_files /\
  Examples.token_files <> [] /\
  Forall (fun req => req_headers req = [("Authorization", "token s3cr3t")])
    (snd (_find_solidity_files Examples.token_repo 8 "o" "r" ""
            (initial_headers Examples.with_token) [])).
Proof.
  assert (match_github_url (Py.rstrip Examples.repo_url "/") = Some ("o", "r"))
    as H1 by (vm_compute; reflexivity).
  assert (fst (_find_solidity_files Examples.token_repo 8 "o" "r" ""
                 (initial_headers Examples.with_token) []) = Ok Examples.token_files)
    as H2 by (vm_compute; reflexivity).
  assert (Examples.token_files <> []) as H3 by discriminate.
  split; [exact H1|]. split; [exact H2|]. split; [exact H3|].
  exact (proj1 (proj2 (token_scope Examples.with_token Examples.token_repo 8
                         Examples.repo_url "*.sol" "o" "r" Examples.token_files
                         H1 H2 H3))).
Defined.

(** C6, as the specification states it, fails: the size that the summary
    reports is not the length of the document returned. *)
Lemma summary_size_counterexample :
  let document :=
    fst (_run Examples.no_token Examples.token_repo 8 Examples.repo_url "*.sol") in
  reports_size document 346 /\ Py.len document = 383.
Proof.
  cbv zeta. split; [|vm_compute; reflexivity].
  apply PyFacts.contains_iff. vm_compute. reflexivity.
Qed.

(** C6, amended.  When files were discovered, the summary (the URL of the
    repository, the number of files, of main contracts and of supporting
    files) is the first section, and after both loops it is patched: the
    document returned starts with the patched summary, which reports the
    length of the sections joined as they stood before the patch.  The
    document returned, which holds the added line as well, is longer than
    the size reported. *)
Theorem summary_size (getenv : string -> option string) (net : request -> outcome)
    (depth : nat) (repo_url file_pattern owner repo : string)
    (solidity_files : list file) :
  let headers := initial_headers getenv in
  let r := fst (render net repo_url solidity_files headers
                       (snd (_find_solidity_files net depth owner repo "" headers []))) in
  let full_output := Py.join (results (r_final r)) in
  let final_summary :=
    final_summary_of (r_summary r) (Py.llen (r_other_files r)) (Py.len full_output) in
  let document := fst (_run getenv net depth repo_url file_pattern) in
  match_github_url (Py.rstrip repo_url "/") = Some (owner, repo) ->
  fst (_find_solidity_files net depth owner repo "" headers []) = Ok solidity_files ->
  solidity_files <> [] ->
  r_summary r =
    summary_of repo_url (Py.llen solidity_files) (Py.llen (r_main_contracts r))
               (Py.llen (r_other_files r)) /\
  (exists sections,
      results (r_final r) = r_summary r :: sections /\
      document =
        final_summary ++ Py.replace (Py.join sections) (r_summary r) final_summary) /\
  reports_size final_summary (Py.len full_output) /\
  reports_size document (Py.len full_output) /\
  Py.len full_output < Py.len document.
Proof.
  cbv zeta. intros Hm Hf Hne.
  destruct (_find_solidity_files net depth owner repo "" (initial_headers getenv) [])
    as [res log0] eqn:Ef. cbn [fst snd] in *. subst res.
  rewrite (run_files getenv net _ _ _ _ _ _ _ Hm Ef Hne). cbn [fst].
  pose proof (render_eq net repo_url solidity_files (initial_headers getenv) log0) as E.
  cbv zeta in E.
  set (x := render net repo_url solidity_files (initial_headers getenv) log0) in *.
  assert (r_summary (fst x) =
          summary_of repo_url (Py.llen solidity_files) (Py.llen (r_main_contracts (fst x)))
                     (Py.llen (r_other_files (fst x)))) as Hsum
    by (rewrite E; reflexivity).
  assert (exists sections, results (r_final (fst x)) = r_summary (fst x) :: sections)
    as [sections Hres] by (rewrite E; cbn; eauto).
  assert (r_summary (fst x) <> "") as Hne'
    by (rewrite Hsum; apply summary_of_not_empty).
  pose proof (finish_eq (fst x) sections Hres Hne') as F. cbv zeta in F.
  destruct (final_summary_of_facts (r_summary (fst x)) (Py.llen (r_other_files (fst x)))
              (Py.len (Py.join (results (r_final (fst x))))))
    as [Hrep Hlen]; [rewrite Hsum; apply summary_of_marker|].
  split; [exact Hsum|]. split; [exists sections; now split|].
  split; [exact Hrep|]. split.
  - rewrite F. now apply reports_size_append.
  - rewrite F, PyFacts.len_append. rewrite Hres at 1. cbn [Py.join].
    rewrite PyFacts.len_append.
    pose proof (PyFacts.len_replace_ge (Py.join sections) (r_summary (fst x))
                  (final_summary_of (r_summary (fst x))
                     (Py.llen (r_other_files (fst x)))
                     (Py.len (Py.join (results (r_final (fst x))))))
                  Hne').
    lia.
Qed.

Lemma summary_size_witness :
  let headers := initial_headers Examples.no_token in
  let r := fst (render Examples.token_repo Examples.repo_url Examples.token_files
                       headers
                       (snd (_find_solidity_files Examples.token_repo 8 "o" "r" ""
                               headers []))) in
  match_github_url (Py.rstrip Examples.repo_url "/") = Some ("o", "r") /\
  fst (_find_solidity_files Examples.token_repo 8 "o" "r" "" headers []) =
    Ok Examples.token_files /\
  Examples.token_files <> [] /\
  Py.len (Py.join (results (r_final r))) <
  Py.len (fst (_run Examples.no_token Examples.token_repo 8 Examples.repo_url "*.sol")).
Proof.
  cbv zeta.
  assert (match_github_url (Py.rstrip Examples.repo_url "/") = Some ("o", "r"))
    as H1 by (vm_compute; reflexivity).
  assert (fst (_find_solidity_files Examples.token_repo 8 "o" "r" ""
                 (initial_headers Examples.no_token) []) = Ok Examples.token_files)
    as H2 by (vm_compute; reflexivity).
  assert (Examples.token_files <> []) as H3 by discriminate.
  split; [exact H1|]. split; [exact H2|]. split; [exact H3|].
  exact (proj2 (proj2 (proj2 (proj2
           (summary_size Examples.no_token Examples.token_repo 8
              Examples.repo_url "*.sol" "o" "r" Examples.token_files H1 H2 H3))))).
Defined.

(** * Further properties of the fetcher *)

(** ** Discovery *)

Section DiscoveryFacts.

Variable net : request -> outcome.

(** What an iteration that does not raise has done. *)
Lemma visit_item_ok (recur : string -> M (list file)) (it : item)
    (log log' : list request) (found : list file) :
  visit_item recur it log = (Ok found, log') ->
  (exists p u, sol_entry it p u /\ found = [(p, u)] /\ log' = log) \/
  (exists p, dict_lookup it "type" = Some "dir" /\ dict_lookup it "path" = Some p /\
             recur p log = (Ok found, log')) \/
  (found = [] /\ log' = log).
Proof.
  unfold visit_item, bind, getitem, ret, raise, sol_entry.
  destruct (dict_lookup it "type") as [ty|] eqn:Ety; cbn; [|discriminate].
  destruct (String.eqb ty "file") eqn:Efile; cbn.
  - apply String.eqb_eq in Efile. subst ty.
    destruct (dict_lookup it "name") as [name|] eqn:En; cbn; [|discriminate].
    destruct (Py.endswith name ".sol") eqn:Es; cbn.
    + destruct (dict_lookup it "path") as [p|]; cbn; [|discriminate].
      destruct (dict_lookup it "download_url") as [u|]; cbn; [|discriminate].
      intros [= <- <-]. left. exists p, u. repeat split. now exists name.
    + intros [= <- <-]. right. right. now split.
  - destruct (String.eqb ty "dir") eqn:Edir; cbn.
    + apply String.eqb_eq in Edir. subst ty.
      destruct (dict_lookup it "path") as [p|]; cbn; [|discriminate].
      intros H. right. left. exists p. now repeat split.
    + intros [= <- <-]. right. right. now split.
Qed.

(** The files that a scan adds satisfy what the files of the recursive
    calls satisfy and what the [.sol] entries scanned satisfy. *)
Lemma scan_items_sound (P : file -> Prop) (recur : string -> M (list file))
    (contents : list item) :
  (forall p log found log', recur p log = (Ok found, log') -> Forall P found) ->
  (forall it p u, In it contents -> sol_entry it p u -> P (p, u)) ->
  forall solidity_files log,
    Forall P solidity_files ->
    Forall P (fst (scan_items recur contents solidity_files log)).
Proof.
  intros Hrec. induction contents as [|it rest IH]; intros Hsol acc log Hacc.
  - exact Hacc.
  - cbn [scan_items].
    destruct (visit_item recur it log) as [[found | e] log'] eqn:Ev; [|exact Hacc].
    apply IH; [intros it' p u Hin Hs; apply (Hsol it'); [now right | exact Hs]|].
    apply Forall_app. split; [exact Hacc|].
    destruct (visit_item_ok _ _ _ _ _ Ev)
      as [[p [u [Hs [-> _]]]] | [[p [_ [_ Hr]]] | [-> _]]].
    + constructor; [|constructor]. apply (Hsol it); [now left | exact Hs].
    + eapply Hrec. exact Hr.
    + constructor.
Qed.

(** An entry without a [type] makes the iteration raise [KeyError]. *)
Lemma visit_item_no_type (recur : string -> M (list file)) (it : item)
    (log : list request) :
  dict_lookup it "type" = None ->
  visit_item recur it log = (Exc "'type'", log).
Proof.
  intros H. unfold visit_item, bind, getitem, raise. now rewrite H.
Qed.

(** An entry without a [type] ends the scan: the scan is that of the
    entries before it. *)
Lemma scan_items_no_type (recur : string -> M (list file)) (it : item)
    (before after : list item) :
  dict_lookup it "type" = None ->
  forall solidity_files log,
    scan_items recur (before ++ it :: after) solidity_files log =
    scan_items recur before solidity_files log.
Proof.
  intros H. induction before as [|b before IH]; intros acc log.
  - cbn [app scan_items]. now rewrite visit_item_no_type.
  - cbn [app scan_items]. destruct (visit_item recur b log) as [[found | e] log'].
    + apply IH.
    + reflexivity.
Qed.

End DiscoveryFacts.

(** The files returned come from [.sol] entries of listings answered with
    status 200. *)
Lemma find_files_listed (net : request -> outcome) (owner repo : string)
    (headers : dict) (depth : nat) :
  forall path log files log',
    _find_solidity_files net depth owner repo path headers log = (Ok files, log') ->
    Forall (fun f : file =>
              exists dir it,
                listed net (listing_request owner repo dir headers) it /\
                sol_entry it (fst f) (snd f)) files.
Proof.
  induction depth as [|d IH]; intros path log files log' H.
  - discriminate H.
  - cbn [_find_solidity_files] in H. unfold requests_get in H.
    fold (listing_request owner repo path headers) in H.
    destruct (net (listing_request owner repo path headers)) as [r | e] eqn:En;
      [|injection H as <- _; constructor].
    destruct (status_code r =? 200) eqn:Est; cbn [negb] in H;
      [|injection H as <- _; constructor].
    apply Z.eqb_eq in Est. unfold response_json in H.
    destruct (json r) as [contents|] eqn:Ej; cbn in H;
      [|injection H as <- _; constructor].
    pose proof (scan_items_sound
                  (fun f : file =>
                     exists dir it,
                       listed net (listing_request owner repo dir headers) it /\
                       sol_entry it (fst f) (snd f))
                  (fun p0 => _find_solidity_files net d owner repo p0 headers)
                  contents) as S.
    destruct (scan_items _ contents [] _) as [fs l3] eqn:Es.
    injection H as <- _.
    replace fs with (fst (scan_items
                            (fun p0 => _find_solidity_files net d owner repo p0 headers)
                            contents []
                            (log ++ [listing_request owner repo path headers])%list))
      by now rewrite Es.
    apply S; [intros; eapply IH; eassumption | | constructor].
    intros it p0 u0 Hin Hs. exists path, it. split; [|exact Hs].
    exists r, contents. auto.
Qed.

(** X1. A file that [_find_solidity_files] returns is never made up: it is
    the path and the download URL of an entry of type [file], with a name
    that ends in [.sol], in a listing of the repository that was answered
    with status 200. *)
Theorem discovery_sound (net : request -> outcome) (depth : nat)
    (owner repo path : string) (headers : dict) (log log' : list request)
    (files : list file) (p u : string) :
  _find_solidity_files net depth owner repo path headers log = (Ok files, log') ->
  In (p, u) files ->
  exists dir it,
    listed net (listing_request owner repo dir headers) it /\ sol_entry it p u.
Proof.
  intros H Hin. apply find_files_listed in H. rewrite Forall_forall in H.
  exact (H _ Hin).
Qed.

Lemma discovery_sound_witness :
  _find_solidity_files Examples.token_repo 8 "o" "r" "" [] [] =
    (Ok Examples.token_files,
     [listing_request "o" "r" "" []; listing_request "o" "r" "src" [];
      listing_request "o" "r" "test" []]) /\
  In ("src/Token.sol", Examples.raw "src/Token.sol") Examples.token_files /\
  exists dir it,
    listed Examples.token_repo (listing_request "o" "r" dir []) it /\
    sol_entry it "src/Token.sol" (Examples.raw "src/Token.sol").
Proof.
  assert (_find_solidity_files Examples.token_repo 8 "o" "r" "" [] [] =
          (Ok Examples.token_files,
           [listing_request "o" "r" "" []; listing_request "o" "r" "src" [];
            listing_request "o" "r" "test" []])) as H1 by (vm_compute; reflexivity).
  assert (In ("src/Token.sol", Examples.raw "src/Token.sol") Examples.token_files)
    as H2 by (now left).
  split; [exact H1|]. split; [exact H2|].
  exact (discovery_sound Examples.token_repo 8 "o" "r" "" [] [] _ _ _ _ H1 H2).
Defined.

(** X2. When no listing of the repository holds a [file] entry with a name
    in [.sol], a run on a matching URL answers that no Solidity file was
    found. *)
Theorem no_sol_entry_no_file (getenv : string -> option string)
    (net : request -> outcome) (d : nat) (repo_url file_pattern owner repo : string) :
  match_github_url (Py.rstrip repo_url "/") = Some (owner, repo) ->
  (forall dir it p u,
      listed net (listing_request owner repo dir (initial_headers getenv)) it ->
      ~ sol_entry it p u) ->
  fst (_run getenv net (S d) repo_url file_pattern) = no_files_message.
Proof.
  intros Hm Hnone.
  destruct (find_returns net d owner repo "" (initial_headers getenv) [])
    as [files [log Hf]].
  destruct files as [|[p u] files].
  - now rewrite (run_no_files getenv net _ _ _ _ _ _ Hm Hf).
  - exfalso.
    destruct (Forall_inv (find_files_listed net _ _ _ _ _ _ _ _ Hf))
      as [dir [it [Hl Hs]]].
    exact (Hnone _ _ _ _ Hl Hs).
Qed.

(** X3. A listing answered with status 200 whose entries can all be read
    loses no file: each of its [file] entries named [*.sol] is among the
    files returned, as long as the recursive calls have a call to spare. *)
Theorem discovery_complete (net : request -> outcome) (d : nat)
    (owner repo path : string) (headers : dict) (log : list request)
    (r : response) (contents : list item) (it : item) (p u : string) :
  net (listing_request owner repo path headers) = Returns r ->
  status_code r = 200 ->
  json r = Some contents ->
  Forall readable_entry contents ->
  In it contents ->
  sol_entry it p u ->
  exists files log',
    _find_solidity_files net (S (S d)) owner repo path headers log = (Ok files, log') /\
    In (p, u) files.
Proof.
  intros Hn Hst Hj Hall Hin Hs.
  cbn [_find_solidity_files]. unfold requests_get.
  fold (listing_request owner repo path headers). rewrite Hn.
  apply Z.eqb_eq in Hst. rewrite Hst. cbn [negb]. unfold response_json.
  rewrite Hj. cbn.
  pose proof (scan_items_complete
                (fun p0 => _find_solidity_files net (S d) owner repo p0 headers)
                contents (fun p0 log0 => find_returns net d owner repo p0 headers log0)
                Hall [] (log ++ [listing_request owner repo path headers])%list
                it p u Hin Hs) as C.
  destruct (scan_items _ contents [] _) as [fs l3]. exists fs, l3. now split.
Qed.

Lemma no_sol_entry_no_file_witness :
  match_github_url (Py.rstrip Examples.repo_url "/") = Some ("o", "r") /\
  (forall dir it p u,
      listed MoreExamples.readme_repo
             (listing_request "o" "r" dir (initial_headers Examples.no_token)) it ->
      ~ sol_entry it p u) /\
  fst (_run Examples.no_token MoreExamples.readme_repo 4 Examples.repo_url "*.sol") =
  no_files_message.
Proof.
  assert (match_github_url (Py.rstrip Examples.repo_url "/") = Some ("o", "r"))
    as H1 by (vm_compute; reflexivity).
  assert (forall dir it p u,
             listed MoreExamples.readme_repo
                    (listing_request "o" "r" dir (initial_headers Examples.no_token)) it ->
             ~ sol_entry it p u) as H2.
  { intros dir it p u [r [contents [Hn [Hst [Hj Hin]]]]] [_ [[name [Hname Hsol]] _]].
    destruct dir as [|c dir]; cbn in Hn.
    - injection Hn as <-. cbn in Hj. injection Hj as <-.
      destruct Hin as [<- | []]. cbn in Hname. injection Hname as <-.
      discriminate Hsol.
    - injection Hn as <-. discriminate Hst. }
  split; [exact H1|]. split; [exact H2|].
  exact (no_sol_entry_no_file Examples.no_token MoreExamples.readme_repo 3
           Examples.repo_url "*.sol" "o" "r" H1 H2).
Defined.

Lemma discovery_complete_witness :
  let r := {| status_code := 200; text := "";
              json := Some [Examples.sol "src/Token.sol" "Token.sol"] |} in
  Examples.token_repo (listing_request "o" "r" "src" []) = Returns r /\
  status_code r = 200 /\
  json r = Some [Examples.sol "src/Token.sol" "Token.sol"] /\
  Forall readable_entry [Examples.sol "src/Token.sol" "Token.sol"] /\
  In (Examples.sol "src/Token.sol" "Token.sol")
     [Examples.sol "src/Token.sol" "Token.sol"] /\
  sol_entry (Examples.sol "src/Token.sol" "Token.sol")
            "src/Token.sol" (Examples.raw "src/Token.sol") /\
  exists files log',
    _find_solidity_files Examples.token_repo 2 "o" "r" "src" [] [] = (Ok files, log') /\
    In ("src/Token.sol", Examples.raw "src/Token.sol") files.
Proof.
  cbv zeta.
  assert (Examples.token_repo (listing_request "o" "r" "src" []) =
          Returns {| status_code := 200; text := "";
                     json := Some [Examples.sol "src/Token.sol" "Token.sol"] |})
    as H1 by (vm_compute; reflexivity).
  assert (sol_entry (Examples.sol "src/Token.sol" "Token.sol")
                    "src/Token.sol" (Examples.raw "src/Token.sol")) as H6.
  { split; [reflexivity|]. split; [|split; reflexivity].
    exists "Token.sol". split; reflexivity. }
  assert (Forall readable_entry [Examples.sol "src/Token.sol" "Token.sol"]) as H4.
  { constructor; [|constructor]. exists "file". split; [reflexivity|]. split.
    - intros _. exists "Token.sol". split; [reflexivity|]. intros _.
      split; discriminate.
    - discriminate. }
  split; [exact H1|]. split; [reflexivity|]. split; [reflexivity|].
  split; [exact H4|]. split; [now left|]. split; [exact H6|].
  exact (discovery_complete Examples.token_repo 0 "o" "r" "src" [] [] _ _ _ _ _
           H1 eq_refl eq_refl H4 (or_introl eq_refl) H6).
Defined.

(** X4. An entry without a [type] key ends the scan of its directory
    without a word: the files returned are those of the entries before it,
    and the entries after it are not looked at. *)
Theorem untyped_entry_ends_scan (net : request -> outcome) (d : nat)
    (owner repo path : string) (headers : dict) (log : list request)
    (r : response) (before after : list item) (it : item) :
  net (listing_request owner repo path headers) = Returns r ->
  status_code r = 200 ->
  json r = Some (before ++ it :: after)%list ->
  dict_lookup it "type" = None ->
  _find_solidity_files net (S d) owner repo path headers log =
  (Ok (fst (scan_items (fun p => _find_solidity_files net d owner repo p headers)
                       before [] (log ++ [listing_request owner repo path headers])%list)),
   snd (scan_items (fun p => _find_solidity_files net d owner repo p headers)
                   before [] (log ++ [listing_request owner repo path headers])%list)).
Proof.
  intros Hn Hst Hj Hty.
  cbn [_find_solidity_files]. unfold requests_get.
  fold (listing_request owner repo path headers). rewrite Hn.
  apply Z.eqb_eq in Hst. rewrite Hst. cbn [negb]. unfold response_json.
  rewrite Hj. cbn. rewrite (scan_items_no_type _ _ _ _ Hty).
  now destruct (scan_items _ before [] _).
Qed.

Lemma untyped_entry_ends_scan_witness :
  let r := {| status_code := 200; text := "";
              json := Some [Examples.sol "A.sol" "A.sol"; MoreExamples.untyped;
                            Examples.sol "C.sol" "C.sol"] |} in
  MoreExamples.untyped_repo (listing_request "o" "r" "" []) = Returns r /\
  status_code r = 200 /\
  json r = Some ([Examples.sol "A.sol" "A.sol"]
                 ++ MoreExamples.untyped :: [Examples.sol "C.sol" "C.sol"])%list /\
  dict_lookup MoreExamples.untyped "type" = None /\
  fst (_find_solidity_files MoreExamples.untyped_repo 3 "o" "r" "" [] []) =
  Ok [("A.sol", Examples.raw "A.sol")].
Proof.
  cbv zeta.
  assert (MoreExamples.untyped_repo (listing_request "o" "r" "" []) =
          Returns {| status_code := 200; text := "";
                     json := Some [Examples.sol "A.sol" "A.sol"; MoreExamples.untyped;
                                   Examples.sol "C.sol" "C.sol"] |})
    as H1 by (vm_compute; reflexivity).
  split; [exact H1|]. split; [reflexivity|]. split; [reflexivity|].
  split; [reflexivity|].
  rewrite (untyped_entry_ends_scan MoreExamples.untyped_repo 2 "o" "r" "" [] []
             _ [Examples.sol "A.sol" "A.sol"] [Examples.sol "C.sol" "C.sol"]
             MoreExamples.untyped H1 eq_refl eq_refl eq_refl).
  vm_compute. reflexivity.
Defined.

(** ** The URL *)

Lemma rstrip_app (a b : string) (c : ascii) :
  Py.rstrip (a ++ b) c =
  match Py.rstrip b c with
  | EmptyString => Py.rstrip a c
  | String _ _ => a ++ Py.rstrip b c
  end.
Proof.
  induction a as [|x a IH]; cbn [append Py.rstrip].
  - now destruct (Py.rstrip b c).
  - rewrite IH. destruct (Py.rstrip b c) as [|y r]; [reflexivity|].
    now destruct a.
Qed.

Lemma rstrip_repeat (c : ascii) (n : nat) : Py.rstrip (Py.repeat_char c n) c = "".
Proof.
  induction n as [|n IH]; cbn [Py.repeat_char Py.rstrip]; [reflexivity|].
  now rewrite IH, Ascii.eqb_refl.
Qed.

(** A string that ends in a character other than [c] is left as it is. *)
Lemma rstrip_kept (s : string) (x c : ascii) :
  x <> c -> Py.rstrip (s ++ String x "") c = s ++ String x "".
Proof.
  intros N. rewrite rstrip_app. cbn [Py.rstrip].
  destruct (Ascii.eqb_spec x c); [contradiction | reflexivity].
Qed.

(** A string with no slash, and not empty, ends in a character other than
    a slash. *)
Lemma no_slash_last (s : string) :
  s <> "" -> no_slash s -> exists s' x, s = s' ++ String x "" /\ x <> "/"%char.
Proof.
  induction s as [|a s IH]; intros Hne Hn; [congruence|].
  apply no_slash_String in Hn as [Ha Hs]. destruct s as [|b s].
  - now exists "", a.
  - destruct (IH ltac:(discriminate) Hs) as [s' [x [E Hx]]].
    exists (String a s'), x. cbn. now rewrite <- E.
Qed.

Lemma rstrip_slash_head (s : string) :
  Py.rstrip (String "/" s) "/" = "" \/
  exists r, Py.rstrip (String "/" s) "/" = "/" ++ r.
Proof.
  cbn [Py.rstrip]. destruct (Py.rstrip s "/") as [|y r]; [now left|].
  right. now exists (String y r).
Qed.

(** The requests of a run on a matching URL do not depend on the log that
    the discovery starts from, only on what it finds. *)
Lemma run_log_eq (getenv : string -> option string) (net : request -> outcome)
    (depth : nat) (repo_url file_pattern owner repo : string) :
  match_github_url (Py.rstrip repo_url "/") = Some (owner, repo) ->
  snd (_run getenv net depth repo_url file_pattern) =
  match _find_solidity_files net depth owner repo "" (initial_headers getenv) [] with
  | (Ok (f :: files), log) =>
      snd (render net "" (f :: files) (initial_headers getenv) log)
  | (_, log) => log
  end.
Proof.
  intros Hm. unfold _run, run_body, bind, ret. rewrite Hm.
  destruct (_find_solidity_files net depth owner repo "" (initial_headers getenv) [])
    as [[[|f files] | e] log]; [reflexivity | | reflexivity].
  rewrite (render_eq net "" (f :: files) (initial_headers getenv) log).
  pose proof (render_eq net repo_url (f :: files) (initial_headers getenv) log) as E.
  cbv zeta in E. destruct (render net repo_url (f :: files) _ log) as [r log'].
  injection E as _ ->. reflexivity.
Qed.

Lemma run_log_by_match (getenv : string -> option string)
    (net : request -> outcome) (depth : nat)
    (repo_url repo_url' file_pattern file_pattern' : string) :
  match_github_url (Py.rstrip repo_url "/") =
    match_github_url (Py.rstrip repo_url' "/") ->
  snd (_run getenv net depth repo_url file_pattern) =
  snd (_run getenv net depth repo_url' file_pattern').
Proof.
  intros H.
  destruct (match_github_url (Py.rstrip repo_url' "/")) as [[owner repo]|] eqn:E.
  - now rewrite (run_log_eq _ _ _ _ _ _ _ H), (run_log_eq _ _ _ _ _ _ _ E).
  - now rewrite (run_invalid _ _ _ _ _ H), (run_invalid _ _ _ _ _ E).
Qed.

(** X5. The requests of a run depend on the URL only through the owner and
    the repository that the pattern captures, and not at all on the file
    pattern: two URLs that are matched alike lead to the same requests, in
    the same order. *)
Theorem requests_by_owner_and_repo (getenv : string -> option string)
    (net : request -> outcome) (depth : nat)
    (repo_url repo_url' file_pattern file_pattern' : string) :
  match_github_url (Py.rstrip repo_url "/") =
    match_github_url (Py.rstrip repo_url' "/") ->
  snd (_run getenv net depth repo_url file_pattern) =
  snd (_run getenv net depth repo_url' file_pattern').
Proof. apply run_log_by_match. Qed.

Lemma requests_by_owner_and_repo_witness :
  match_github_url (Py.rstrip "https://github.com/o/r" "/") =
    match_github_url (Py.rstrip "https://github.com/o/r/tree/main/src" "/") /\
  snd (_run Examples.no_token Examples.token_repo 8 "https://github.com/o/r" "*.sol") =
  snd (_run Examples.no_token Examples.token_repo 8
            "https://github.com/o/r/tree/main/src" "*.vy").
Proof.
  assert (match_github_url (Py.rstrip "https://github.com/o/r" "/") =
          match_github_url (Py.rstrip "https://github.com/o/r/tree/main/src" "/"))
    as H by (vm_compute; reflexivity).
  split; [exact H|].
  exact (requests_by_owner_and_repo Examples.no_token Examples.token_repo 8
           _ _ "*.sol" "*.vy" H).
Defined.

(** X6. Trailing slashes are dropped before the URL is matched, however
    many there are: a URL with slashes added at its end is matched as the
    URL itself, and leads to the same requests. *)
Theorem trailing_slashes_dropped (getenv : string -> option string)
    (net : request -> outcome) (depth : nat) (repo_url file_pattern : string)
    (n : nat) :
  let slashed := repo_url ++ Py.repeat_char "/" n in
  Py.rstrip slashed "/" = Py.rstrip repo_url "/" /\
  match_github_url (Py.rstrip slashed "/") =
    match_github_url (Py.rstrip repo_url "/") /\
  snd (_run getenv net depth slashed file_pattern) =
    snd (_run getenv net depth repo_url file_pattern).
Proof.
  cbv zeta.
  assert (Py.rstrip (repo_url ++ Py.repeat_char "/" n) "/" = Py.rstrip repo_url "/") as E
    by now rewrite rstrip_app, rstrip_repeat.
  split; [exact E|]. split; [now rewrite E|].
  apply run_log_by_match. now rewrite E.
Qed.

(** X7. The pattern is matched at the start of the URL only: a URL that
    goes on after the repository with a slash and more (a tree, a file, an
    issue) is accepted, and is read as the repository. *)
Theorem deeper_url_accepted (owner repo extra : string) :
  owner <> "" -> repo <> "" -> no_slash owner -> no_slash repo ->
  match_github_url
    (Py.rstrip ("https://github.com/" ++ owner ++ "/" ++ repo ++ "/" ++ extra) "/") =
  Some (owner, repo).
Proof.
  intros Ho Hr Hno Hnr.
  destruct (no_slash_last repo Hr Hnr) as [repo' [x [Erepo Hx]]].
  apply match_github_url_iff.
  replace ("https://github.com/" ++ owner ++ "/" ++ repo ++ "/" ++ extra)
    with (("https://github.com/" ++ owner ++ "/" ++ repo) ++ "/" ++ extra)
    by (now rewrite !PyFacts.append_assoc).
  rewrite rstrip_app.
  assert (Py.rstrip ("https://github.com/" ++ owner ++ "/" ++ repo) "/" =
          "https://github.com/" ++ owner ++ "/" ++ repo) as Ebase.
  { rewrite Erepo.
    replace ("https://github.com/" ++ owner ++ "/" ++ repo' ++ String x "")
      with (("https://github.com/" ++ owner ++ "/" ++ repo') ++ String x "")
      by (now rewrite !PyFacts.append_assoc).
    now apply rstrip_kept. }
  change ("/" ++ extra) with (String "/" extra).
  destruct (rstrip_slash_head extra) as [E | [r E]]; rewrite E.
  - rewrite Ebase. exists "". rewrite PyFacts.append_nil_r.
    repeat split; auto.
  - exists ("/" ++ r). cbn [append]. rewrite !PyFacts.append_assoc.
    repeat split; auto. right. now exists r.
Qed.

Lemma deeper_url_accepted_witness :
  "o" <> "" /\ "r" <> "" /\ no_slash "o" /\ no_slash "r" /\
  match_github_url (Py.rstrip "https://github.com/o/r/issues/5/" "/") = Some ("o", "r").
Proof.
  assert ("o" <> "") as H1 by discriminate.
  assert ("r" <> "") as H2 by discriminate.
  assert (no_slash "o") as H3 by reflexivity.
  assert (no_slash "r") as H4 by reflexivity.
  split; [exact H1|]. split; [exact H2|]. split; [exact H3|]. split; [exact H4|].
  exact (deeper_url_accepted "o" "r" "issues/5/" H1 H2 H3 H4).
Defined.

(** ** Accounting *)

Section Accounting.

Variable net : request -> outcome.
Variable headers : dict.

Lemma reached_length (total : Z) (other_files : list file) :
  (List.length (reached net headers total other_files)
   + List.length (notice_for (skipped net headers total other_files))
   <= List.length other_files)%nat.
Proof.
  rewrite (reached_skipped net headers total other_files) at 3.
  rewrite length_app.
  destruct (skipped net headers total other_files); cbn; lia.
Qed.

(** The supporting loop passes the limit by one block at most. *)
Lemma reached_bound (bound : Z) (other_files : list file) :
  0 <= bound ->
  (forall f, In f other_files -> Py.len (supporting_block net headers f) <= bound) ->
  forall total,
    total + counted_sum net headers (supporting_block net headers)
                        (reached net headers total other_files)
    <= Z.max total (100000 + bound).
Proof.
  intros Hb. induction other_files as [|f rest IH]; intros Hall total.
  - cbn [reached counted_sum fold_right]. lia.
  - cbn [reached]. destruct (100000 <? total) eqn:E;
      [cbn [counted_sum fold_right]; lia|].
    apply Z.ltb_ge in E. cbn [counted_sum fold_right].
    fold (counted_sum net headers (supporting_block net headers)
            (reached net headers
               (total + counted net headers (supporting_block net headers) f) rest)).
    specialize (IH (fun g Hg => Hall g (or_intror Hg))
                   (total + counted net headers (supporting_block net headers) f)).
    assert (0 <= counted net headers (supporting_block net headers) f <= bound) as Hc.
    { unfold counted. destruct (fetched net headers f).
      - split; [apply PyFacts.len_nonneg | apply Hall; now left].
      - lia. }
    lia.
Qed.

End Accounting.

(** The length of a rendered supporting section, apart from its header,
    is 2056 at most. *)
Lemma supporting_section_bound (file_path content : string) :
  Py.len (supporting_section file_path content) <=
  Py.len (supporting_header file_path (Py.len content)) + 2056.
Proof.
  unfold supporting_section. rewrite PyFacts.len_append.
  destruct (2000 <? Py.len content) eqn:E.
  - apply Z.ltb_lt in E. rewrite !PyFacts.len_append, PyFacts.len_take_2000 by exact E.
    replace (Py.len "First 2000 characters:
") with 23 by reflexivity.
    replace (Py.len truncation_marker) with 33 by reflexivity. lia.
  - apply Z.ltb_ge in E. rewrite !PyFacts.len_append.
    replace (Py.len "Complete content:
") with 18 by reflexivity.
    replace (Py.len "
") with 1 by reflexivity. lia.
Qed.

(** X8. The numbers of the summary add up: the files found are the main
    contracts and the supporting files.  The document has one block per
    file at most, after the summary, and a run sends one request for content
    per file at most. *)
Theorem accounting (net : request -> outcome) (headers : dict)
    (repo_url : string) (solidity_files : list file) (log : list request) :
  let r := fst (render net repo_url solidity_files headers log) in
  let log' := snd (render net repo_url solidity_files headers log) in
  Py.llen solidity_files = Py.llen (r_main_contracts r) + Py.llen (r_other_files r) /\
  r_summary r =
    summary_of repo_url (Py.llen solidity_files) (Py.llen (r_main_contracts r))
               (Py.llen (r_other_files r)) /\
  Py.llen (results (r_final r)) <= 1 + Py.llen solidity_files /\
  Py.llen log' <= Py.llen log + Py.llen solidity_files.
Proof.
  cbv zeta. pose proof (render_eq net repo_url solidity_files headers log) as E.
  cbv zeta in E. rewrite E. clear E.
  cbn [fst snd r_main_contracts r_other_files r_final r_summary results].
  set (mains := filter (fun f => is_main_contract (fst f)) solidity_files).
  set (others := filter (fun f => negb (is_main_contract (fst f))) solidity_files).
  assert (List.length mains + List.length others = List.length solidity_files)%nat as L
    by apply (filter_length (fun f : file => is_main_contract (fst f))).
  pose proof (reached_length net headers
                (counted_sum net headers (main_block net headers) mains) others) as R.
  split; [|split; [reflexivity|]];
    unfold Py.llen; cbn [List.length]; rewrite ?length_app, ?length_map;
    unfold file in *; [lia | split; lia].
Qed.

(** X9. The size that the counter tracks stays within a budget: when the
    main contracts leave it at 100,000 or less, it ends at 100,000 plus the
    length of one supporting block at most; and the length of a supporting
    section is that of its header and 2056 at most, however long the file. *)
Theorem budget (net : request -> outcome) (headers : dict)
    (repo_url : string) (solidity_files : list file) (log : list request)
    (bound : Z) :
  let r := fst (render net repo_url solidity_files headers log) in
  0 <= bound ->
  (forall f, In f (r_other_files r) ->
             Py.len (supporting_block net headers f) <= bound) ->
  total_chars (r_final r) <= Z.max (total_chars (r_after_main r)) (100000 + bound) /\
  (forall file_path content,
      Py.len (supporting_section file_path content) <=
      Py.len (supporting_header file_path (Py.len content)) + 2056).
Proof.
  cbv zeta. pose proof (render_eq net repo_url solidity_files headers log) as E.
  cbv zeta in E. rewrite E.
  cbn [fst r_other_files r_final r_after_main total_chars].
  intros Hb Hall. split; [|apply supporting_section_bound].
  now apply reached_bound.
Qed.

Lemma budget_witness :
  let headers := initial_headers Examples.no_token in
  let r := fst (render Examples.full_repo Examples.repo_url Examples.full_files
                       headers []) in
  0 <= 200 /\
  (forall f, In f (r_other_files r) ->
             Py.len (supporting_block Examples.full_repo headers f) <= 200) /\
  total_chars (r_final r) <= Z.max (total_chars (r_after_main r)) (100000 + 200).
Proof.
  cbv zeta.
  assert (0 <= 200) as H1 by lia.
  assert (forall f,
             In f (r_other_files
                     (fst (render Examples.full_repo Examples.repo_url
                             Examples.full_files
                             (initial_headers Examples.no_token) []))) ->
             Py.len (supporting_block Examples.full_repo
                       (initial_headers Examples.no_token) f) <= 200) as H2.
  { intros f Hin.
    assert (r_other_files
              (fst (render Examples.full_repo Examples.repo_url Examples.full_files
                      (initial_headers Examples.no_token) [])) =
            [("test/Small.t.sol", Examples.raw "test/Small.t.sol")]) as E
      by (vm_compute; reflexivity).
    rewrite E in Hin. destruct Hin as [<- | []]. vm_compute. discriminate. }
  split; [exact H1|]. split; [exact H2|].
  exact (proj1 (budget Examples.full_repo (initial_headers Examples.no_token)
                  Examples.repo_url Examples.full_files [] 200 H1 H2)).
Defined.

(** ** The requests of a run *)

Lemma list_headers_no_accept (headers : dict) :
  dict_lookup (list_headers_of headers) "Accept" = None.
Proof.
  unfold list_headers_of. induction headers as [|[k v] headers IH]; [reflexivity|].
  cbn [filter fst]. destruct (String.eqb k "Accept") eqn:E; cbn [negb]; [exact IH|].
  cbn [dict_lookup]. now rewrite E.
Qed.

(** Every request of [_find_solidity_files] lists a directory of the
    repository. *)
Lemma find_lists (net : request -> outcome) (depth : nat) (owner repo : string)
    (headers : dict) :
  forall path,
    extends_log (fun req => exists dir, req = listing_request owner repo dir headers)
                (_find_solidity_files net depth owner repo path headers).
Proof.
  induction depth as [|d IH]; intros path log.
  - exists []. cbn. now rewrite app_nil_r.
  - cbn [_find_solidity_files]. unfold requests_get.
    fold (listing_request owner repo path headers).
    set (req := listing_request owner repo path headers).
    assert (Forall (fun r => exists dir, r = listing_request owner repo dir headers) [req])
      as F0 by (constructor; [now exists path | constructor]).
    destruct (net req) as [r | e]; [|exists [req]; now split].
    destruct (negb (status_code r =? 200)); [exists [req]; now split|].
    unfold response_json. destruct (json r) as [contents|]; cbn;
      [|exists [req]; now split].
    destruct (scan_items_extends _ _ IH contents [] (log ++ [req])%list) as [m [E F]].
    destruct (scan_items _ _ _ _) as [fs log3]. cbn in E |- *. subst log3.
    exists ([req] ++ m)%list. rewrite app_assoc. split; [reflexivity|].
    now apply Forall_app.
Qed.

(** The files reached are supporting files. *)
Lemma reached_incl (net : request -> outcome) (headers : dict) (total : Z)
    (other_files : list file) (f : file) :
  In f (reached net headers total other_files) -> In f other_files.
Proof.
  intros H. rewrite (reached_skipped net headers total other_files).
  apply in_or_app. now left.
Qed.

(** X10. A run asks for nothing but listings of the repository and the
    content of the files it has discovered: each of its requests is the
    listing of a directory of the repository, or the request for a file that
    the discovery returned.  None carries the [Accept] header that the run
    prepares. *)
Theorem requests_of_a_run (getenv : string -> option string)
    (net : request -> outcome) (depth : nat)
    (repo_url file_pattern owner repo : string) (req : request) :
  let headers := initial_headers getenv in
  match_github_url (Py.rstrip repo_url "/") = Some (owner, repo) ->
  In req (snd (_run getenv net depth repo_url file_pattern)) ->
  dict_lookup (req_headers req) "Accept" = None /\
  ((exists dir, req = listing_request owner repo dir headers) \/
   (exists f files,
       fst (_find_solidity_files net depth owner repo "" headers []) = Ok files /\
       In f files /\ req = raw_request headers f)).
Proof.
  cbv zeta. intros Hm Hin. rewrite (run_log_eq _ _ _ _ _ _ _ Hm) in Hin.
  destruct (find_lists net depth owner repo (initial_headers getenv) "" [])
    as [more [Hlog Hall]]. cbn [app] in Hlog.
  destruct (_find_solidity_files net depth owner repo "" (initial_headers getenv) [])
    as [res log0] eqn:Ef. cbn [fst snd] in *. subst log0.
  rewrite Forall_forall in Hall.
  assert (In req more ->
          dict_lookup (req_headers req) "Accept" = None /\
          ((exists dir, req = listing_request owner repo dir (initial_headers getenv)) \/
           (exists f files,
               res = Ok files /\ In f files /\
               req = raw_request (initial_headers getenv) f))) as Hlist.
  { intros H. destruct (Hall _ H) as [dir ->]. split; [|left; now exists dir].
    apply list_headers_no_accept. }
  destruct res as [[|f0 files] | e]; [now apply Hlist | | now apply Hlist].
  rewrite (render_eq net "" (f0 :: files) (initial_headers getenv) more) in Hin.
  cbn [snd] in Hin. apply in_app_or in Hin as [Hin | Hin]; [now apply Hlist|].
  assert (exists f, In f (f0 :: files) /\ req = raw_request (initial_headers getenv) f)
    as [f [Hf ->]].
  { apply in_app_or in Hin as [Hin | Hin]; apply in_map_iff in Hin as [f [<- Hf]];
      exists f; (split; [|reflexivity]).
    - now apply filter_In in Hf.
    - apply reached_incl in Hf. now apply filter_In in Hf. }
  split; [reflexivity|]. right. exists f, (f0 :: files). auto.
Qed.

Lemma requests_of_a_run_witness :
  let req := {| req_url := Examples.raw "src/Token.sol";
                req_headers := [("Authorization", "token s3cr3t")] |} in
  match_github_url (Py.rstrip Examples.repo_url "/") = Some ("o", "r") /\
  In req (snd (_run Examples.with_token Examples.token_repo 8 Examples.repo_url "*.sol")) /\
  dict_lookup (req_headers req) "Accept" = None.
Proof.
  cbv zeta.
  assert (match_github_url (Py.rstrip Examples.repo_url "/") = Some ("o", "r"))
    as H1 by (vm_compute; reflexivity).
  assert (In {| req_url := Examples.raw "src/Token.sol";
                req_headers := [("Authorization", "token s3cr3t")] |}
             (snd (_run Examples.with_token Examples.token_repo 8
                        Examples.repo_url "*.sol")))
    as H2 by (vm_compute; auto 6).
  split; [exact H1|]. split; [exact H2|].
  exact (proj1 (requests_of_a_run Examples.with_token Examples.token_repo 8
                  Examples.repo_url "*.sol" "o" "r" _ H1 H2)).
Defined.

(** X11. Of the environment a run reads [GITHUB_TOKEN] only, and an empty
    value is as good as none: two environments whose tokens are the same, or
    are both empty or absent, give the same document and the same
    requests. *)
Theorem token_is_all_of_the_environment (getenv getenv' : string -> option string)
    (net : request -> outcome) (depth : nat) (repo_url file_pattern : string) :
  match getenv "GITHUB_TOKEN", getenv' "GITHUB_TOKEN" with
  | Some (String a t), Some (String a' t') => String a t = String a' t'
  | Some (String _ _), _ => False
  | _, Some (String _ _) => False
  | _, _ => True
  end ->
  _run getenv net depth repo_url file_pattern =
  _run getenv' net depth repo_url file_pattern.
Proof.
  intros H.
  assert (initial_headers getenv = initial_headers getenv') as E.
  { unfold initial_headers.
    destruct (getenv "GITHUB_TOKEN") as [[|a t]|];
      destruct (getenv' "GITHUB_TOKEN") as [[|a' t']|];
      try reflexivity; try contradiction. now rewrite H. }
  unfold _run, run_body. now rewrite E.
Qed.

Lemma token_is_all_of_the_environment_witness :
  match MoreExamples.empty_token "GITHUB_TOKEN", Examples.no_token "GITHUB_TOKEN" with
  | Some (String a t), Some (String a' t') => String a t = String a' t'
  | Some (String _ _), _ => False
  | _, Some (String _ _) => False
  | _, _ => True
  end /\
  _run MoreExamples.empty_token Examples.token_repo 8 Examples.repo_url "*.sol" =
  _run Examples.no_token Examples.token_repo 8 Examples.repo_url "*.sol".
Proof.
  assert (match MoreExamples.empty_token "GITHUB_TOKEN",
                Examples.no_token "GITHUB_TOKEN" with
          | Some (String a t), Some (String a' t') => String a t = String a' t'
          | Some (String _ _), _ => False
          | _, Some (String _ _) => False
          | _, _ => True
          end) as H by exact I.
  split; [exact H|].
  exact (token_is_all_of_the_environment MoreExamples.empty_token Examples.no_token
           Examples.token_repo 8 Examples.repo_url "*.sol" H).
Defined.

(** ** The rewriting of the download URL *)

(** A prefix of a string that is long enough is a prefix of its head. *)
Lemma startswith_head (x y p : string) :
  Py.startswith (x ++ y) p = true ->
  (String.length p <= String.length x)%nat ->
  Py.startswith x p = true.
Proof.
  revert x. induction p as [|b p IH]; intros x H L; [reflexivity|].
  destruct x as [|a x]; [cbn in L; lia|].
  cbn [append Py.startswith] in *. apply andb_true_iff in H as [-> H].
  cbn in L. apply IH; [exact H | lia].
Qed.

(** Where the first occurrence of [old] starts right after [a], [a] is
    kept, the occurrence is replaced, and the search goes on after it. *)
Lemma replace_first_at (a init b new : string) (l : ascii) :
  Py.contains (a ++ init) (init ++ String l "") = false ->
  Py.replace (a ++ (init ++ String l "") ++ b) (init ++ String l "") new =
  a ++ new ++ Py.replace b (init ++ String l "") new.
Proof.
  assert (init ++ String l "" <> "") as Hne by (destruct init; discriminate).
  induction a as [|c a IH]; intros H.
  - cbn [append]. now apply PyFacts.replace_hit.
  - cbn [append] in *. cbn [Py.contains] in H. apply orb_false_iff in H as [H1 H2].
    rewrite PyFacts.replace_miss; [now rewrite IH|].
    apply not_true_iff_false. intros Hs. apply not_true_iff_false in H1. apply H1.
    change (String c (a ++ (init ++ String l "") ++ b))
      with (String c a ++ (init ++ String l "") ++ b) in Hs.
    rewrite PyFacts.append_assoc in Hs. rewrite <- (PyFacts.append_assoc _ init) in Hs.
    apply (startswith_head _ _ _ Hs).
    rewrite !PyFacts.length_append. cbn [String.length]. lia.
Qed.

(** X12. A download URL that holds neither [https://api.github.com/repos/]
    nor [/contents/] is fetched as it is. *)
Theorem raw_url_unchanged (download_url : string) :
  Py.contains download_url "https://api.github.com/repos/" = false ->
  Py.contains download_url "/contents/" = false ->
  raw_url_of download_url = download_url.
Proof.
  intros H1 H2. unfold raw_url_of.
  rewrite (PyFacts.replace_absent _ _ _ H1). now apply PyFacts.replace_absent.
Qed.

Lemma raw_url_unchanged_witness :
  Py.contains (Examples.raw "src/Token.sol") "https://api.github.com/repos/" = false /\
  Py.contains (Examples.raw "src/Token.sol") "/contents/" = false /\
  raw_url_of (Examples.raw "src/Token.sol") = Examples.raw "src/Token.sol".
Proof.
  assert (Py.contains (Examples.raw "src/Token.sol")
                      "https://api.github.com/repos/" = false) as H1 by reflexivity.
  assert (Py.contains (Examples.raw "src/Token.sol") "/contents/" = false)
    as H2 by reflexivity.
  split; [exact H1|]. split; [exact H2|].
  exact (raw_url_unchanged _ H1 H2).
Defined.

(** X13. The rewriting does not tell a directory named [contents] from the
    [/contents/] of an API URL: in a download URL that is not an API URL,
    the first [/contents/] is cut down to a slash, and so is every later
    one, so the file is asked for at another path. *)
Theorem raw_url_loses_contents (a b : string) :
  Py.contains (a ++ "/contents/" ++ b) "https://api.github.com/repos/" = false ->
  Py.contains (a ++ "/contents") "/contents/" = false ->
  raw_url_of (a ++ "/contents/" ++ b) = a ++ "/" ++ Py.replace b "/contents/" "/".
Proof.
  intros H1 H2. unfold raw_url_of. rewrite (PyFacts.replace_absent _ _ _ H1).
  exact (replace_first_at a "/contents" b "/" "/" H2).
Qed.

Lemma raw_url_loses_contents_witness :
  Py.contains ("https://raw.githubusercontent.com/o/r/main/docs" ++ "/contents/"
               ++ "Vault.sol") "https://api.github.com/repos/" = false /\
  Py.contains ("https://raw.githubusercontent.com/o/r/main/docs" ++ "/contents")
              "/contents/" = false /\
  raw_url_of (Examples.raw MoreExamples.contents_path) =
  "https://raw.githubusercontent.com/o/r/main/docs/Vault.sol".
Proof.
  assert (Py.contains ("https://raw.githubusercontent.com/o/r/main/docs" ++ "/contents/"
                       ++ "Vault.sol") "https://api.github.com/repos/" = false)
    as H1 by reflexivity.
  assert (Py.contains ("https://raw.githubusercontent.com/o/r/main/docs" ++ "/contents")
                      "/contents/" = false) as H2 by reflexivity.
  split; [exact H1|]. split; [exact H2|].
  exact (raw_url_loses_contents "https://raw.githubusercontent.com/o/r/main/docs"
           "Vault.sol" H1 H2).
Defined.

(** ** The entry point *)

Lemma rstrip_prefix (s : string) (c : ascii) : exists t, s = Py.rstrip s c ++ t.
Proof.
  induction s as [|a s [t IH]]; [now exists ""|].
  cbn [Py.rstrip]. destruct (Py.rstrip s c) as [|y r] eqn:E.
  - destruct (Ascii.eqb a c).
    + now exists (String a s).
    + exists s. reflexivity.
  - exists t. change (String a (String y r) ++ t) with (String a (String y r ++ t)).
    f_equal. exact IH.
Qed.

Lemma rstrip_first (a : ascii) (s : string) (c : ascii) :
  Py.rstrip (String a s) c = "" \/ exists r, Py.rstrip (String a s) c = String a r.
Proof.
  cbn [Py.rstrip]. destruct (Py.rstrip s c) as [|y r].
  - destruct (Ascii.eqb a c); [now left | right; now exists ""].
  - right. now exists (String y r).
Qed.

Lemma llen_two {A : Type} (x y : A) (l : list A) : (Py.llen (x :: y :: l) <? 2) = false.
Proof. apply Z.ltb_ge. unfold Py.llen. cbn [List.length]. lia. Qed.

(** X14. The entry point lets through every URL that the fetcher accepts:
    with such a URL as its argument, [run] prints nothing, exits at no check
    and starts the crew on that URL. *)
Theorem run_admits_fetcher_urls (kickoff : dict -> result unit)
    (program url : string) (more : list string) :
  match_github_url (Py.rstrip url "/") <> None ->
  Main.run kickoff (program :: url :: more) =
  ([], match kickoff [("contract_source", url)] with
       | Ok _ => Main.Returned
       | Exc e => Main.Raised ("An error occurred while running the crew: " ++ e)
       end).
Proof.
  intros H. unfold Main.run. rewrite llen_two. cbn [nth].
  assert (Py.startswith url "https://github.com" = true) as ->.
  { unfold match_github_url in H.
    destruct (strip_prefix "https://github.com/" (Py.rstrip url "/")) as [r|] eqn:E;
      [|congruence].
    apply strip_prefix_iff in E. destruct (rstrip_prefix url "/") as [t Ht].
    apply PyFacts.startswith_iff. exists ("/" ++ r ++ t).
    rewrite Ht at 1. rewrite E. now rewrite !PyFacts.append_assoc. }
  cbn [negb]. now destruct (kickoff _).
Qed.

Lemma run_admits_fetcher_urls_witness :
  match_github_url (Py.rstrip "https://github.com/o/r/" "/") <> None /\
  Main.run MoreExamples.quiet_crew ["main.py"; "https://github.com/o/r/"] =
  ([], Main.Returned).
Proof.
  assert (match_github_url (Py.rstrip "https://github.com/o/r/" "/") <> None)
    as H by (vm_compute; discriminate).
  split; [exact H|].
  exact (run_admits_fetcher_urls MoreExamples.quiet_crew "main.py"
           "https://github.com/o/r/" [] H).
Defined.

(** X15. The check of the entry point is weaker than that of the fetcher:
    a URL that starts with [https://github.com] and goes on with anything
    but a slash is let through by [run], and refused by the fetcher. *)
Theorem run_admits_more (kickoff : dict -> result unit)
    (getenv : string -> option string) (net : request -> outcome) (depth : nat)
    (program tail file_pattern : string) (more : list string) :
  Py.startswith tail "/" = false ->
  let url := "https://github.com" ++ tail in
  Main.run kickoff (program :: url :: more) =
  ([], match kickoff [("contract_source", url)] with
       | Ok _ => Main.Returned
       | Exc e => Main.Raised ("An error occurred while running the crew: " ++ e)
       end) /\
  _run getenv net depth url file_pattern = (invalid_url_message, []).
Proof.
  intros Ht. cbv zeta. split.
  - unfold Main.run. rewrite llen_two. cbn [nth].
    rewrite PyFacts.startswith_append. cbn [negb]. now destruct (kickoff _).
  - apply run_invalid. rewrite rstrip_app.
    destruct tail as [|a tail]; [reflexivity|].
    cbn [Py.startswith] in Ht. rewrite andb_true_r in Ht.
    destruct (rstrip_first a tail "/") as [-> | [r ->]]; [reflexivity|].
    unfold match_github_url. cbn [append strip_prefix].
    rewrite !Ascii.eqb_refl. now rewrite Ht.
Qed.

Lemma run_admits_more_witness :
  Py.startswith ".evil.example/o/r" "/" = false /\
  _run Examples.no_token Examples.token_repo 8
       ("https://github.com" ++ ".evil.example/o/r") "*.sol" =
  (invalid_url_message, []).
Proof.
  assert (Py.startswith ".evil.example/o/r" "/" = false) as H by reflexivity.
  split; [exact H|].
  exact (proj2 (run_admits_more MoreExamples.quiet_crew Examples.no_token
                  Examples.token_repo 8 "main.py" ".evil.example/o/r" "*.sol" [] H)).
Defined.
